(** * A shallow embedding of the AI Flow Runner backend

    The backend is a small Express relay: [src/server.js] (with the two older
    copies [src/unnamed/part_000] and [src/unnamed/part_001]) takes a POST
    /chat request, [src/bookService.js] normalises the language and renders
    the chat history, and [src/aiService.js] builds the prompt, calls the
    chat-completion vendor with a rate-limit retry loop and post-processes
    classification answers.  [src/aiService.js] holds two versions of the
    completion client, one for OpenRouter and one for Groq; both are
    modelled.

    Strings are byte strings ([String.string], UTF-8 literals as bytes);
    [toLowerCase] and [trim] are modelled on the ASCII range, which covers
    every literal the code compares against. *)

From Stdlib Require Import String Ascii ZArith List Bool Lia.
From Stdlib Require Import Numbers.DecimalString.
Import ListNotations.
Open Scope string_scope.

(** ** JavaScript string primitives *)

Module JSString.

(** [String.prototype.toLowerCase], ASCII range. *)
Definition lower_char (c : ascii) : ascii :=
  let n := nat_of_ascii c in
  if ((65 <=? n) && (n <=? 90))%nat then ascii_of_nat (n + 32)%nat else c.

Fixpoint toLowerCase (s : string) : string :=
  match s with
  | EmptyString => EmptyString
  | String c r => String (lower_char c) (toLowerCase r)
  end.

(** [String.prototype.toUpperCase], ASCII range. *)
Definition upper_char (c : ascii) : ascii :=
  let n := nat_of_ascii c in
  if ((97 <=? n) && (n <=? 122))%nat then ascii_of_nat (n - 32)%nat else c.

(** The white space of [\s] and of [trim] in the ASCII range:
    tab, line feed, vertical tab, form feed, carriage return, space. *)
Definition is_ws (c : ascii) : bool :=
  let n := nat_of_ascii c in
  (((9 <=? n) && (n <=? 13)) || (n =? 32))%nat.

Fixpoint trim_start (s : string) : string :=
  match s with
  | EmptyString => EmptyString
  | String c r => if is_ws c then trim_start r else s
  end.

Definition rev_string (s : string) : string :=
  string_of_list_ascii (rev (list_ascii_of_string s)).

Definition trim_end (s : string) : string :=
  rev_string (trim_start (rev_string s)).

(** [String.prototype.trim]. *)
Definition trim (s : string) : string := trim_end (trim_start s).

(** [String.prototype.includes]: [needle] occurs in [hay]. *)
Fixpoint includes (hay needle : string) : bool :=
  prefix needle hay ||
  match hay with
  | EmptyString => false
  | String _ r => includes r needle
  end.

(** [s.replace(/\s+/g, ' ')]: every maximal run of white space becomes one
    space.  [in_ws] records that the previous character was white space. *)
Fixpoint collapse_ws_from (in_ws : bool) (s : string) : string :=
  match s with
  | EmptyString => EmptyString
  | String c r =>
      if is_ws c then
        if in_ws then collapse_ws_from true r
        else String " "%char (collapse_ws_from true r)
      else String c (collapse_ws_from false r)
  end.

Definition replace_ws_runs (s : string) : string := collapse_ws_from false s.

(** [s.charAt(0).toUpperCase() + s.slice(1)]. *)
Definition capitalize (s : string) : string :=
  match s with
  | EmptyString => EmptyString
  | String c r => String (upper_char c) r
  end.

End JSString.

Import JSString.

(** ** JavaScript values

    The values a JSON request body can carry, plus the two non-JSON values
    that a lookup in an object literal can return through its prototype:
    a function (e.g. [Object], reached through ["constructor"]) and
    [Object.prototype] itself (reached through ["__proto__"]). *)

#[local] Set Warnings "-register-all".

Inductive jsval : Type :=
| JUndefined
| JNull
| JBool (b : bool)
| JNum (z : Z)
| JStr (s : string)
| JArray (elems : list jsval)
| JObject
| JFunction (name : string)
| JObjectPrototype.

(** JavaScript truthiness ([NaN] is not modelled). *)
Definition truthy (v : jsval) : bool :=
  match v with
  | JUndefined | JNull => false
  | JBool b => b
  | JNum z => negb (Z.eqb z 0)
  | JStr s => negb (String.eqb s "")
  | JArray _ | JObject | JFunction _ | JObjectPrototype => true
  end.

Definition string_of_Z (z : Z) : string :=
  NilEmpty.string_of_int (Z.to_int z).

(** [String(v)], as used by template literals and property keys.
    [Array.prototype.toString] joins the elements with commas and prints
    [undefined] and [null] elements as the empty string. *)
Fixpoint to_str (v : jsval) : string :=
  match v with
  | JUndefined => "undefined"
  | JNull => "null"
  | JBool true => "true"
  | JBool false => "false"
  | JNum z => string_of_Z z
  | JStr s => s
  | JArray es =>
      let fix go (l : list jsval) : list string :=
        match l with
        | [] => []
        | e :: r =>
            (match e with JUndefined | JNull => "" | _ => to_str e end) :: go r
        end in
      String.concat "," (go es)
  | JObject | JObjectPrototype => "[object Object]"
  | JFunction n => "function " ++ n ++ "() { [native code] }"
  end.

(** Property names of [Object.prototype] and what reading them from a plain
    object literal yields. *)
Definition object_prototype_get (k : string) : jsval :=
  if String.eqb k "__proto__" then JObjectPrototype
  else if String.eqb k "constructor" then JFunction "Object"
  else if existsb (String.eqb k)
         ["__defineGetter__"; "__defineSetter__"; "hasOwnProperty";
          "__lookupGetter__"; "__lookupSetter__"; "isPrototypeOf";
          "propertyIsEnumerable"; "toString"; "valueOf"; "toLocaleString"]
       then JFunction k
  else JUndefined.

(** [obj[key]] on an object literal whose own properties are string-valued:
    own property first, then [Object.prototype]. *)
Definition obj_get (own : list (string * string)) (key : jsval) : jsval :=
  let k := to_str key in
  match find (fun p => String.eqb (fst p) k) own with
  | Some (_, v) => JStr v
  | None => object_prototype_get k
  end.

(** ** [src/bookService.js] *)

Module BookService.

Definition BOOK_LANGUAGE_MAP : list (string * string) :=
  [("en", "english"); ("ta", "tamil"); ("hi", "hindi"); ("es", "spanish");
   ("fr", "french"); ("de", "german"); ("ja", "japanese"); ("zh", "chinese");
   ("ko", "korean"); ("ar", "arabic"); ("pt", "portuguese"); ("te", "telugu");
   ("ml", "malayalam")].

Definition LANGUAGE_NAME_TO_CODE : list (string * string) :=
  [("english", "en"); ("tamil", "ta"); ("hindi", "hi"); ("spanish", "es");
   ("french", "fr"); ("german", "de"); ("japanese", "ja"); ("chinese", "zh");
   ("korean", "ko"); ("arabic", "ar"); ("portuguese", "pt"); ("telugu", "te");
   ("malayalam", "ml")].

(** A thrown [TypeError], by its message. *)
Definition type_error := string.

(** [normalizeLanguage(language)]; [inr] is the [TypeError] thrown by
    [language.toLowerCase()] on a truthy non-string. *)
Definition normalizeLanguage (language : jsval) : jsval + type_error :=
  if negb (truthy language) then inl (JStr "en") else
  match language with
  | JStr s =>
      let langLower := trim (toLowerCase s) in
      if (String.length langLower =? 2)%nat
         && truthy (obj_get BOOK_LANGUAGE_MAP (JStr langLower))
      then inl (JStr langLower)
      else
        let v := obj_get LANGUAGE_NAME_TO_CODE (JStr langLower) in
        if truthy v then inl v else inl (JStr "en")
  | _ => inr "language.toLowerCase is not a function"
  end.

End BookService.

(** ** Result formatters of [src/aiService.js] (identical in both versions) *)

Module Format.

Definition emotions : list string := ["stressed"; "happy"; "sad"; "angry"; "neutral"].

Fixpoint first_emotion (lowerResult : string) (l : list string) : option string :=
  match l with
  | [] => None
  | emotion :: r =>
      if includes lowerResult emotion then Some (capitalize emotion)
      else first_emotion lowerResult r
  end.

(** [formatEmotionResult(result)]. *)
Definition formatEmotionResult (result : string) : string :=
  let lowerResult := trim (toLowerCase result) in
  match first_emotion lowerResult emotions with
  | Some e => e
  | None => "Neutral"
  end.

Definition categories : list string :=
  ["Work & Career"; "Family & Relationships"; "Health & Wellness";
   "Finance & Money"; "Personal & General"].

Fixpoint first_category (lowerResult : string) (l : list string) : option string :=
  match l with
  | [] => None
  | category :: r =>
      if includes lowerResult (replace_ws_runs (toLowerCase category))
      then Some category
      else first_category lowerResult r
  end.

(** [formatCategoryResult(result)]. *)
Definition formatCategoryResult (result : string) : string :=
  let lowerResult := trim (toLowerCase result) in
  match first_category lowerResult categories with
  | Some c => c
  | None => "Personal & General"
  end.

End Format.

(** ** The completion client of [src/aiService.js] *)

Module Client.

(** A chat message as sent to the vendor ([{ role, content }]). *)
Record ChatMessage := mkMsg { role : string; content : string }.

(** A segment of a multi-part message content ([{ type, text }]). *)
Record ContentPart := mkPart { part_type : string; part_text : jsval }.

(** [completion.choices[0]?.message?.content]: a string, an array of parts,
    or absent ([ContentNone]: no choice, no message, or a null content). *)
Inductive msg_content :=
| ContentString (s : string)
| ContentParts (parts : list ContentPart)
| ContentNone.

Definition content_truthy (c : msg_content) : bool :=
  match c with
  | ContentString s => negb (String.eqb s "")
  | ContentParts _ => true
  | ContentNone => false
  end.

(** The thrown vendor error.  The SDKs throw [Error] instances, so
    [error.message] is a string ([""] when unset, as [Error.prototype.message]);
    the other fields are arbitrary values, [JUndefined] when absent. *)
Record ResponseInfo := mkResponse { resp_status : jsval; resp_data : jsval }.

(** [error.error]: a nested error object or a bare string. *)
Inductive InnerError :=
| InnerString (s : string)
| InnerObject (inner_message : string) (inner_code : jsval).

Record VendorError := mkVendorError {
  err_message : string;
  err_status : jsval;
  err_statusCode : jsval;
  err_code : jsval;
  err_response : option ResponseInfo;
  err_body : jsval;
  err_error : option InnerError }.

(** What the [catch] clause receives: a thrown string or an error object. *)
Inductive thrown :=
| ThrownString (s : string)
| ThrownObject (e : VendorError).

Definition plain_error (msg : string) : thrown :=
  ThrownObject (mkVendorError msg JUndefined JUndefined JUndefined None JUndefined None).

(** [new Error('No response from AI agent')], thrown inside the [try]. *)
Definition no_response_error : thrown := plain_error "No response from AI agent".

(** One vendor call: a completion or a thrown error. *)
Inductive vendor_result :=
| Completion (c : msg_content)
| VendorFailure (t : thrown).

(** The error thrown by [callAIAgent] ([enhancedError]). *)
Record EnhancedError := mkEnhanced {
  en_message : string;
  en_statusCode : jsval;
  en_isRateLimit : bool;
  en_originalError : thrown;
  en_retryCount : nat }.

(** *** Shared error extraction (lines 114-136 and 452-475) *)

(** [errorMessage]: [error.message], else [error.error?.message], else the
    thrown string, else ['Unknown error']. *)
Definition extract_message (t : thrown) : string :=
  match t with
  | ThrownString s => s
  | ThrownObject e =>
      if negb (String.eqb (err_message e) "") then err_message e
      else match err_error e with
           | Some (InnerObject m _) =>
               if negb (String.eqb m "") then m else "Unknown error"
           | _ => "Unknown error"
           end
  end.

Definition is_number (v : jsval) : bool :=
  match v with JNum _ => true | _ => false end.

Definition response_status (e : VendorError) : jsval :=
  match err_response e with Some r => resp_status r | None => JUndefined end.

Definition response_data (e : VendorError) : jsval :=
  match err_response e with Some r => resp_data r | None => JUndefined end.

(** [errorCode] in the OpenRouter version. *)
Definition extract_code_openrouter (t : thrown) : jsval :=
  match t with
  | ThrownString _ => JNum 500
  | ThrownObject e =>
      if truthy (err_status e) then err_status e
      else if truthy (err_statusCode e) then err_statusCode e
      else if truthy (err_code e) && is_number (err_code e) then err_code e
      else if truthy (response_status e) then response_status e
      else JNum 500
  end.

(** [errorCode] in the Groq version, which also reads [error.error?.code]. *)
Definition extract_code_groq (t : thrown) : jsval :=
  match t with
  | ThrownString _ => JNum 500
  | ThrownObject e =>
      if truthy (err_status e) then err_status e
      else if truthy (err_statusCode e) then err_statusCode e
      else if truthy (err_code e) && is_number (err_code e) then err_code e
      else if truthy (response_status e) then response_status e
      else match err_error e with
           | Some (InnerObject _ c) => if truthy c then c else JNum 500
           | _ => JNum 500
           end
  end.

(** [errorBody]: [error.body], else [error.response?.data], else
    [error.error]; [JNull] when none is truthy. *)
Definition extract_body (t : thrown) : jsval :=
  match t with
  | ThrownString _ => JNull
  | ThrownObject e =>
      if truthy (err_body e) then err_body e
      else if truthy (response_data e) then response_data e
      else match err_error e with
           | Some (InnerString s) => if String.eqb s "" then JNull else JStr s
           | Some (InnerObject _ _) => JObject
           | None => JNull
           end
  end.

Definition code_is_429 (v : jsval) : bool :=
  match v with JNum z => Z.eqb z 429 | _ => false end.

(** [errorBody && typeof errorBody === 'string' && test(errorBody.toLowerCase())] *)
Definition string_body_test (body : jsval) (test : string -> bool) : bool :=
  truthy body && match body with JStr b => test (toLowerCase b) | _ => false end.

(** [isRateLimit], OpenRouter version (lines 139-143). *)
Definition isRateLimit_openrouter (t : thrown) : bool :=
  let m := toLowerCase (extract_message t) in
  code_is_429 (extract_code_openrouter t)
  || includes m "rate" || includes m "limit"
  || string_body_test (extract_body t) (fun b => includes b "rate").

(** [isRateLimit], Groq version (lines 478-483). *)
Definition isRateLimit_groq (t : thrown) : bool :=
  let m := toLowerCase (extract_message t) in
  code_is_429 (extract_code_groq t)
  || includes m "rate" || includes m "limit" || includes m "quota"
  || string_body_test (extract_body t)
       (fun b => includes b "rate" || includes b "quota").

Definition MAX_RETRIES : nat := 3.
Definition INITIAL_DELAY : Z := 2000.
Definition MAX_DELAY : Z := 30000.

Definition exhausted_message : string :=
  "Rate limit exceeded. Retried 3 times. Please wait 30-60 seconds and try again.".

(** The [enhancedError] of the OpenRouter version (lines 166-187). *)
Definition enhance_openrouter (t : thrown) (retryCount : nat) : EnhancedError :=
  let errorMessage := extract_message t in
  let errorCode := extract_code_openrouter t in
  let rl := isRateLimit_openrouter t in
  if rl then
    mkEnhanced
      (if (MAX_RETRIES <=? retryCount)%nat then exhausted_message
       else "Rate limit exceeded. The free model is temporarily rate-limited. Please wait 10-15 seconds and try again.")
      errorCode true t retryCount
  else if includes errorMessage "cookie" || includes errorMessage "auth" then
    mkEnhanced "Authentication error. Please check your API key in .env file."
      (JNum 401) false t retryCount
  else if includes errorMessage "provider" then
    mkEnhanced "Model provider error. The free model may be temporarily unavailable. Please try again in a few moments."
      errorCode false t retryCount
  else mkEnhanced errorMessage errorCode false t retryCount.

(** The [enhancedError] of the Groq version (lines 506-527). *)
Definition enhance_groq (t : thrown) (retryCount : nat) : EnhancedError :=
  let errorMessage := extract_message t in
  let errorCode := extract_code_groq t in
  let rl := isRateLimit_groq t in
  if rl then
    mkEnhanced
      (if (MAX_RETRIES <=? retryCount)%nat then exhausted_message
       else "Rate limit exceeded. Please wait 10-15 seconds and try again.")
      errorCode true t retryCount
  else if includes errorMessage "api key" || includes errorMessage "auth"
          || includes errorMessage "unauthorized" then
    mkEnhanced "Authentication error. Please check your GROQ_API_KEY in .env file."
      (JNum 401) false t retryCount
  else if includes errorMessage "model" || includes errorMessage "not found" then
    mkEnhanced "Model error. The requested model may be unavailable. Please try again in a few moments."
      errorCode false t retryCount
  else mkEnhanced errorMessage errorCode false t retryCount.

(** The [try] block after the vendor call, OpenRouter version (lines 90-108):
    the text returned, or what is thrown to the [catch]. *)
Definition try_openrouter (r : vendor_result) : string + thrown :=
  match r with
  | VendorFailure t => inr t
  | Completion c =>
      if negb (content_truthy c) then inr no_response_error else
      match c with
      | ContentString s => inl (trim s)
      | ContentParts ps =>
          inl (trim (String.concat ""
                 (map (fun item => to_str (if truthy (part_text item)
                                           then part_text item else JStr ""))
                      (filter (fun item => String.eqb (part_type item) "text") ps))))
      | ContentNone => inr no_response_error
      end
  end.

(** Groq version (lines 439-446): [String(response).trim()]; an array of
    part objects prints as ["[object Object]"] per part, comma separated. *)
Definition try_groq (r : vendor_result) : string + thrown :=
  match r with
  | VendorFailure t => inr t
  | Completion c =>
      if negb (content_truthy c) then inr no_response_error else
      match c with
      | ContentString s => inl (trim s)
      | ContentParts ps => inl (trim (to_str (JArray (map (fun _ => JObject) ps))))
      | ContentNone => inr no_response_error
      end
  end.

(** The two versions of the client differ only in these three places. *)
Record provider := mkProvider {
  p_try : vendor_result -> string + thrown;
  p_isRateLimit : thrown -> bool;
  p_enhance : thrown -> nat -> EnhancedError }.

Definition openrouter : provider :=
  mkProvider try_openrouter isRateLimit_openrouter enhance_openrouter.
Definition groq : provider :=
  mkProvider try_groq isRateLimit_groq enhance_groq.

(** *** The effects: vendor calls and sleeps *)

Inductive event :=
| Send (messages : list ChatMessage)
| Sleep (ms : Z).

(** [calls] counts the vendor calls made so far; [events] is the
    chronological record of calls and sleeps. *)
Record world := mkWorld { calls : nat; events : list event }.

Definition M (A : Type) := world -> A * world.
Definition ret {A} (a : A) : M A := fun w => (a, w).
Definition bind {A B} (m : M A) (k : A -> M B) : M B :=
  fun w => let (a, w') := m w in k a w'.
Notation "x <- m ;; k" := (bind m (fun x => k)) (at level 61, m at next level, right associativity).

(** The vendor: its answer to the [n]-th call with the given messages. *)
Definition vendor := nat -> list ChatMessage -> vendor_result.

Definition send (upstream : vendor) (msgs : list ChatMessage) : M vendor_result :=
  fun w => (upstream (calls w) msgs,
            mkWorld (S (calls w)) (events w ++ [Send msgs])).

Definition sleep (ms : Z) : M unit :=
  fun w => (tt, mkWorld (calls w) (events w ++ [Sleep ms])).

(** [Math.min(INITIAL_DELAY * Math.pow(2, retryCount), MAX_DELAY)]. *)
Definition backoff (retryCount : nat) : Z :=
  Z.min (INITIAL_DELAY * 2 ^ Z.of_nat retryCount) MAX_DELAY.

(** [[...history.map(msg => ({ role: msg.role, content: msg.content })),
      { role: 'user', content: text }]]. *)
Definition build_messages (text : string) (history : list ChatMessage) : list ChatMessage :=
  map (fun msg => mkMsg (role msg) (content msg)) history ++ [mkMsg "user" text].

Section Call.

Variable p : provider.
Variable upstream : vendor.

(** One activation of [callAIAgent] and the recursive retries it makes.
    [fuel] bounds the recursion depth; [callAIAgent] starts it at
    [MAX_RETRIES - retryCount], so it never runs out while
    [retryCount < MAX_RETRIES]. *)
Fixpoint call_loop (fuel : nat) (text : string) (history : list ChatMessage)
    (retryCount : nat) : M (string + EnhancedError) :=
  r <- send upstream (build_messages text history) ;;
  match p_try p r with
  | inl s => ret (inl s)
  | inr error =>
      if p_isRateLimit p error && (retryCount <? MAX_RETRIES)%nat then
        match fuel with
        | S fuel' =>
            _ <- sleep (backoff retryCount) ;;
            call_loop fuel' text history (S retryCount)
        | O => ret (inr (p_enhance p error retryCount))
        end
      else ret (inr (p_enhance p error retryCount))
  end.

(** [callAIAgent(text, language, history, retryCount)]; [language] is unused
    by the body. *)
Definition callAIAgent (text : string) (language : jsval)
    (history : list ChatMessage) (retryCount : nat) : M (string + EnhancedError) :=
  call_loop (MAX_RETRIES - retryCount) text history retryCount.

End Call.

End Client.
(** ** Prompts ([getBookChatbotPrompt], [processStepWithAI], [formatChatHistory]) *)

Module Prompt.

Import Client.

Definition nl : string := String (ascii_of_nat 10) EmptyString.

(** The templates are transcribed with a backquote for each double quote
    character of the source; [with_quotes] puts the double quotes back. *)
Definition with_quotes (s : string) : string :=
  string_of_list_ascii
    (map (fun c => if Ascii.eqb c "`"%char then ascii_of_nat 34 else c)
         (list_ascii_of_string s)).

(** [formatChatHistory(history)] of [src/bookService.js]. *)
Definition formatChatHistory (history : list ChatMessage) : string :=
  match history with
  | [] => ""
  | _ =>
      let formatted :=
        String.concat nl
          (map (fun msg => (if String.eqb (role msg) "user" then "User" else "Assistant")
                           ++ ": " ++ content msg) history) in
      nl ++ "PREVIOUS CONVERSATION:" ++ nl ++ formatted ++ nl
  end.

Definition BOOK_LANGUAGE_DISPLAY : list (string * string) :=
  [("en", "English"); ("ta", "Tamil (தமிழ்)"); ("hi", "Hindi (हिंदी)");
   ("es", "Spanish"); ("fr", "French"); ("de", "German (Deutsch)");
   ("ja", "Japanese"); ("zh", "Chinese"); ("ko", "Korean"); ("ar", "Arabic");
   ("pt", "Portuguese"); ("te", "Telugu (తెలుగు)"); ("ml", "Malayalam (മലയാളം)")].

Definition LANGUAGE_NAMES : list (string * string) :=
  [("en", "English"); ("ta", "Tamil"); ("hi", "Hindi"); ("es", "Spanish");
   ("fr", "French"); ("de", "German"); ("ja", "Japanese"); ("zh", "Chinese");
   ("ko", "Korean"); ("ar", "Arabic"); ("pt", "Portuguese"); ("te", "Telugu");
   ("ml", "Malayalam")].

(** The template of [getBookChatbotPrompt] (lines 199-243). *)
Definition book_prompt (book_or_default chatHistory question targetLang : string) : string :=
  "You are a helpful assistant that answers questions based on a book.

BOOK CONTENT:
" ++
  book_or_default ++
  "
" ++
  chatHistory ++
  "
CURRENT USER'S QUESTION: " ++
  question ++
  with_quotes "

UNDERSTANDING USER INPUT:
Users may type in various ways - you MUST understand their intent:

1. TAMIL users may type:
   - Pure Tamil: `காதல் பற்றி சொல்லு`
   - Tanglish (Tamil + English): `kadhal patri sollu`, `appa amma about sollu`
   - Mixed: `love பற்றி சொல்லு`

2. ENGLISH users may type:
   - Normal English: `Tell me about love`
   - With typos: `tel me abot love`

3. HINDI users may type:
   - Pure Hindi: `प्यार के बारे में बताओ`
   - Hinglish (Hindi + English): `pyaar ke baare mein batao`, `love ke baare mein bolo`

4. TELUGU users may type:
   - Pure Telugu: `ప్రేమ గురించి చెప్పు`
   - Tenglish (Telugu + English): `prema gurinchi cheppu`, `love gurinchi cheppu`

5. MALAYALAM users may type:
   - Pure Malayalam: `സ്നേഹത്തെ കുറിച്ച് പറയൂ`
   - Manglish (Malayalam + English): `sneham kurichu parayoo`, `love ne patti para`

6. GERMAN users may type:
   - Pure German: `Erzähl mir von der Liebe`
   - With English mix: `Tell me about Liebe`

STRICT RESPONSE RULES:
1. Answer ONLY based on the book content above.
2. Understand user intent regardless of spelling mistakes or language mixing.
3. Use PREVIOUS CONVERSATION context if available (user may ask follow-up questions like `அது பற்றி மேலும் சொல்லு`, `tell me more`, etc.)
4. DEFAULT language is " ++
  targetLang ++
  ". Use " ++
  targetLang ++
  with_quotes " script for answers.
5. EXCEPTION: If user explicitly asks for translation (e.g., `English la sollu`, `translate to Hindi`, `German-ல சொல்லு`), respond in that requested language.
6. If answer not in book, say `I don't have information about this in the book` (in appropriate language).
7. FORMAT URLs as markdown links: [link text](URL). Example: [Portfolio](https://example.com)

YOUR ANSWER:".

(** [getBookChatbotPrompt(bookContent, question, language, history)]. *)
Definition getBookChatbotPrompt (bookContent : jsval) (question : jsval)
    (language : jsval) (history : list ChatMessage) : string :=
  let display := obj_get BOOK_LANGUAGE_DISPLAY language in
  let targetLang := if truthy display then display else language in
  let chatHistory := formatChatHistory history in
  book_prompt
    (if truthy bookContent then to_str bookContent
     else "No book content available for this language.")
    chatHistory (to_str question) (to_str targetLang).

Definition clean_text_prompt (text : string) : string :=
  "You are a text cleaning expert. Clean and normalize the following text by:
1. Removing extra whitespace and line breaks
2. Fixing common typos
3. Normalizing punctuation
4. Removing special characters that don't belong

Return ONLY the cleaned text without any explanations, prefixes, or additional text.

Text to clean:
" ++
  text.

Definition detect_emotion_prompt (text : string) : string :=
  "Analyze the emotional tone and sentiment of the following text. 

You must respond with ONLY one word from this exact list (case-sensitive):
- stressed
- happy
- sad
- angry
- neutral

Do not include any explanations, prefixes, or additional text. Just the emotion word.

Text to analyze:
" ++
  text.

Definition categorize_text_prompt (text : string) : string :=
  "Categorize the following text into one of these exact categories:

1. Work & Career
2. Family & Relationships
3. Health & Wellness
4. Finance & Money
5. Personal & General

Respond with ONLY the exact category name from the list above. Do not include any explanations or additional text.

Text to categorize:
" ++
  text.

Definition summarize_prompt (langName text : string) : string :=
  "Provide a concise and informative summary of the following text in 2-3 sentences. 
Capture the main points and key information. Write in " ++
  langName ++
  ".

Text to summarize:
" ++
  text.

Definition translate_prompt (langName text : string) : string :=
  "Translate the following text to " ++
  langName ++
  ". 

Requirements:
- Maintain the original meaning and tone
- Keep proper grammar and natural phrasing
- Return ONLY the translated text without any explanations or prefixes

Text to translate:
" ++
  text.

Definition is_string (v : jsval) (s : string) : bool :=
  match v with JStr s' => String.eqb s' s | _ => false end.

(** The [switch (stepType)] of [processStepWithAI] (identical in both
    versions); an unknown [stepType] sends the text itself. *)
Definition step_prompt (stepType text language : jsval) : string :=
  let langName :=
    let n := obj_get LANGUAGE_NAMES language in
    to_str (if truthy n then n else JStr "English") in
  if is_string stepType "clean_text" then clean_text_prompt (to_str text)
  else if is_string stepType "detect_emotion" then detect_emotion_prompt (to_str text)
  else if is_string stepType "categorize_text" then categorize_text_prompt (to_str text)
  else if is_string stepType "summarize" then summarize_prompt langName (to_str text)
  else if is_string stepType "translate" then translate_prompt langName (to_str text)
  else to_str text.

(** [processStepWithAI(stepType, text, language, history)]. *)
Definition processStepWithAI (p : provider) (upstream : vendor)
    (stepType text language : jsval) (history : list ChatMessage)
    : M (string + EnhancedError) :=
  callAIAgent p upstream (step_prompt stepType text language) language history 0.

End Prompt.

(** ** The client functions on the [history] a request carries *)

Module Caller.

Import Client Prompt.

(** A [history] that is not an array, as a JSON body can carry it: [null], a
    boolean, a number, a string, or an object without a [length] property. *)
Inductive non_array :=
| NANull
| NABool (b : bool)
| NANum (z : Z)
| NAStr (s : string)
| NAObject.

(** The [history] passed on by a handler: an array of [{ role, content }]
    strings, or a value that is not an array. *)
Inductive history_value :=
| HistoryArray (l : list ChatMessage)
| HistoryOther (v : non_array).

Definition non_array_truthy (v : non_array) : bool :=
  truthy (match v with
          | NANull => JNull
          | NABool b => JBool b
          | NANum z => JNum z
          | NAStr s => JStr s
          | NAObject => JObject
          end).

(** The message of the [TypeError] raised by [history.map(...)]. *)
Definition history_map_error (v : non_array) : string :=
  match v with
  | NANull => "Cannot read properties of null (reading 'map')"
  | _ => "history.map is not a function"
  end.

Section Call.

Variable p : provider.
Variable upstream : vendor.

(** [callAIAgent] when [history.map] throws: the [TypeError] is raised inside
    the [try] before the vendor is called, and the [catch] handles it as it
    handles a vendor failure (a retry re-raises the same error). *)
Fixpoint throw_loop (fuel : nat) (error : thrown) (retryCount : nat)
    : M (string + EnhancedError) :=
  if p_isRateLimit p error && (retryCount <? MAX_RETRIES)%nat then
    match fuel with
    | S fuel' =>
        _ <- sleep (backoff retryCount) ;;
        throw_loop fuel' error (S retryCount)
    | O => ret (inr (p_enhance p error retryCount))
    end
  else ret (inr (p_enhance p error retryCount)).

(** [callAIAgent(text, language, history, retryCount)] on any [history]. *)
Definition callAIAgent_js (text : string) (language : jsval) (history : history_value)
    (retryCount : nat) : M (string + EnhancedError) :=
  match history with
  | HistoryArray l => callAIAgent p upstream text language l retryCount
  | HistoryOther v =>
      throw_loop (MAX_RETRIES - retryCount) (plain_error (history_map_error v)) retryCount
  end.

(** [processStepWithAI(stepType, text, language, history)] on any [history]. *)
Definition processStepWithAI_js (stepType text language : jsval) (history : history_value)
    : M (string + EnhancedError) :=
  callAIAgent_js (step_prompt stepType text language) language history 0.

End Call.

(** [formatChatHistory(history)] on any [history]: a falsy value gives [''];
    any other value that is not an array has a [length] other than 0 and no
    [map], so [history.map] throws. *)
Definition formatChatHistory_js (history : history_value) : string + string :=
  match history with
  | HistoryArray l => inl (formatChatHistory l)
  | HistoryOther v =>
      if negb (non_array_truthy v) then inl "" else inr "history.map is not a function"
  end.

(** [getBookChatbotPrompt(bookContent, question, language, history)] on any
    [history]; the [TypeError] of [formatChatHistory] rejects the call. *)
Definition getBookChatbotPrompt_js (bookContent question language : jsval)
    (history : history_value) : string + string :=
  let display := obj_get BOOK_LANGUAGE_DISPLAY language in
  let targetLang := if truthy display then display else language in
  match formatChatHistory_js history with
  | inr te => inr te
  | inl chatHistory =>
      inl (book_prompt
             (if truthy bookContent then to_str bookContent
              else "No book content available for this language.")
             chatHistory (to_str question) (to_str targetLang))
  end.

End Caller.

(** ** [getBookContent] and [isBookChatbotRequest] of [src/bookService.js] *)

Module Book.

Import Client BookService.

(** An entry of [data/chunks.json] ([{ language, text }], both strings). *)
Record Chunk := mkChunk { chunk_language : string; chunk_text : string }.

(** [getBookContent(language)] over the chunks loaded at start-up.  The key
    [langKey] is always a string when it is reached (a truthy non-string
    [language] makes [normalizeLanguage] throw first); the other case is
    modelled as the [TypeError] of [langKey.toLowerCase()]. *)
Definition getBookContent (allChunks : list Chunk) (language : jsval)
    : string + type_error :=
  match allChunks with
  | [] => inl ""
  | _ =>
    match normalizeLanguage language with
    | inr te => inr te
    | inl langCode =>
        let mapped := obj_get BOOK_LANGUAGE_MAP langCode in
        let langKey :=
          if truthy mapped then inl mapped
          else match language with
               | JStr s => inl (JStr (toLowerCase s))
               | _ => inr "language.toLowerCase is not a function"
               end in
        match langKey with
        | inr te => inr te
        | inl (JStr k) =>
            let languageChunks :=
              filter (fun chunk => negb (String.eqb (chunk_language chunk) "")
                        && String.eqb (toLowerCase (chunk_language chunk)) (toLowerCase k))
                     allChunks in
            match languageChunks with
            | [] => inl ""
            | _ => inl (String.concat (Prompt.nl ++ Prompt.nl ++ "---" ++ Prompt.nl ++ Prompt.nl)
                          (map chunk_text languageChunks))
            end
        | inl _ => inr "langKey.toLowerCase is not a function"
        end
    end
  end.

(** [isBookChatbotRequest(stepType)]. *)
Definition isBookChatbotRequest (stepType : jsval) : bool :=
  negb (truthy stepType) || Prompt.is_string stepType "book_chat".

End Book.

(** ** The POST /chat handlers *)

Module Server.

Import Client Prompt Caller.

(** The request body [{ text, language, history, stepType }]; an absent
    field is [JUndefined] ([None] for [history]). *)
Record Request := mkRequest {
  req_text : jsval;
  req_language : jsval;
  req_history : option history_value;
  req_stepType : jsval }.

(** [res.status(status).json(body)]; [res.json(body)] has status 200. *)
Record HttpResponse := mkHttp { res_status : jsval; res_body : list (string * jsval) }.

(** What reaches the handler's [catch]: the client's [enhancedError] or a
    [TypeError] (from [toLowerCase] on a non-string, or from
    [formatChatHistory] on a history that is not an array). *)
Inductive server_error :=
| ClientError (e : EnhancedError)
| TypeErrorThrown (message : string).

Definition rate_limit_text : string :=
  "Rate limit exceeded. Please wait 10-15 seconds and try again. The free model has usage limits.".

(** [error.originalError.message] of a thrown string is [undefined]. *)
Definition original_message (t : thrown) : jsval :=
  match t with
  | ThrownObject e => JStr (err_message e)
  | ThrownString _ => JUndefined
  end.

Definition thrown_truthy (t : thrown) : bool :=
  match t with
  | ThrownObject _ => true
  | ThrownString s => negb (String.eqb s "")
  end.

(** [s.split(c)]. *)
Fixpoint split_char (c0 : ascii) (s : string) : list string :=
  match s with
  | EmptyString => [EmptyString]
  | String c r =>
      let rest := split_char c0 r in
      if Ascii.eqb c c0 then EmptyString :: rest
      else match rest with
           | first :: others => String c first :: others
           | [] => [String c EmptyString]
           end
  end.

Definition error_name (error : server_error) : string :=
  match error with
  | ClientError _ => "Error"
  | TypeErrorThrown _ => "TypeError"
  end.

Definition error_message (error : server_error) : string :=
  match error with
  | ClientError e => en_message e
  | TypeErrorThrown m => m
  end.

(** [error.stack].  V8 formats it when it is first read, which for these
    errors happens in the [catch] ([console.error]): its first line is the
    error's name and its message at that moment (the name alone for an empty
    message), and the next lines are the call sites recorded when the error
    was created ([frames], one ["    at ..."] line each), which depend on the
    runtime. *)
Definition error_stack (error : server_error) (frames : list string) : string :=
  let header :=
    if String.eqb (error_message error) "" then error_name error
    else error_name error ++ ": " ++ error_message error in
  String.concat nl (header :: frames).

(** [error.stack.split('\n').slice(0, 3).join('\n')]. *)
Definition stack_field (stack : string) : string :=
  String.concat nl (firstn 3 (split_char (ascii_of_nat 10) stack)).

(** The [catch] of [app.post('/chat')] (server.js lines 65-98, identical in
    part_000 lines 104-137).  [production] is [NODE_ENV === 'production'];
    [frames] are the call sites of the error's stack. *)
Definition chat_error_response (production : bool) (frames : list string)
    (error : server_error) : HttpResponse :=
  let statusCode :=
    match error with
    | ClientError e => if truthy (en_statusCode e) then en_statusCode e else JNum 500
    | TypeErrorThrown _ => JNum 500
    end in
  let message := error_message error in
  let errorMessage0 := if String.eqb message "" then "Internal server error" else message in
  let isRateLimit :=
    match error with ClientError e => en_isRateLimit e | TypeErrorThrown _ => false end in
  let errorMessage :=
    if isRateLimit || code_is_429 statusCode then rate_limit_text else errorMessage0 in
  let details :=
    if production then []
    else (match error with
          | ClientError e =>
              if thrown_truthy (en_originalError e)
              then [("originalError", original_message (en_originalError e))]
              else []
          | TypeErrorThrown _ => []
          end
          ++ (let stack := error_stack error frames in
              if String.eqb stack "" then [] else [("stack", JStr (stack_field stack))]))%list in
  mkHttp statusCode ([("error", JStr errorMessage); ("statusCode", statusCode)] ++ details).

Definition MODEL : string := "qwen/qwen3-coder:free".

Definition bad_request (msg : string) : HttpResponse :=
  mkHttp (JNum 400) [("error", JStr msg); ("success", JBool false)].

Definition format_step (stepType : jsval) (response : string) : string :=
  if is_string stepType "detect_emotion" then Format.formatEmotionResult response
  else if is_string stepType "categorize_text" then Format.formatCategoryResult response
  else response.

Definition default_language (v : jsval) : jsval :=
  match v with JUndefined => JStr "en" | _ => v end.

Definition default_history (h : option history_value) : history_value :=
  match h with Some v => v | None => HistoryArray [] end.

Section Handler.

Variable p : provider.
Variable upstream : vendor.
Variable production : bool.
(** The call sites the runtime records for each error. *)
Variable stack_frames : server_error -> list string.

Definition error_reply (error : server_error) : M HttpResponse :=
  ret (chat_error_response production (stack_frames error) error).

(** The workflow branch shared by both handlers. *)
Definition workflow_step (stepType text normalizedLang : jsval)
    (history : history_value) : M HttpResponse :=
  r <- processStepWithAI_js p upstream stepType text normalizedLang history ;;
  match r with
  | inr e => error_reply (ClientError e)
  | inl response =>
      ret (mkHttp (JNum 200)
             [("success", JBool true); ("response", JStr (format_step stepType response));
              ("model", JStr MODEL); ("stepType", stepType);
              ("language", normalizedLang); ("type", JStr "workflow")])
  end.

(** [app.post('/chat')] of [src/server.js], with the book chunks loaded at
    start-up. *)
Definition chat_handler (allChunks : list Book.Chunk) (req : Request) : M HttpResponse :=
  let text := req_text req in
  let language := default_language (req_language req) in
  let history := default_history (req_history req) in
  let stepType := req_stepType req in
  if negb (truthy text) then ret (bad_request "Text is required") else
  match BookService.normalizeLanguage language with
  | inr te => error_reply (TypeErrorThrown te)
  | inl normalizedLang =>
      if Book.isBookChatbotRequest stepType then
        match Book.getBookContent allChunks normalizedLang with
        | inr te => error_reply (TypeErrorThrown te)
        | inl bookContent =>
            match getBookChatbotPrompt_js (JStr bookContent) text normalizedLang history with
            | inr te => error_reply (TypeErrorThrown te)
            | inl prompt =>
                r <- callAIAgent p upstream prompt normalizedLang [] 0 ;;
                match r with
                | inr e => error_reply (ClientError e)
                | inl response =>
                    ret (mkHttp (JNum 200)
                           [("success", JBool true); ("question", text);
                            ("language", normalizedLang); ("answer", JStr response);
                            ("model", JStr MODEL); ("type", JStr "book_chatbot")])
                end
            end
        end
      else workflow_step stepType text normalizedLang history
  end.

End Handler.

End Server.

(** ** The older server copy [src/unnamed/part_000] *)

Module Part000.

Import Client Server.

Definition LANGUAGE_CODE_MAP : list (string * string) := BookService.BOOK_LANGUAGE_MAP.
Definition LANGUAGE_NAME_TO_CODE : list (string * string) := BookService.LANGUAGE_NAME_TO_CODE.

(** [normalizeLanguage] of part_000 (lines 40-57). *)
Definition normalizeLanguage (language : jsval) : jsval + BookService.type_error :=
  if negb (truthy language) then inl (JStr "en") else
  match language with
  | JStr s =>
      let langLower := trim (toLowerCase s) in
      if (String.length langLower =? 2)%nat
         && truthy (obj_get LANGUAGE_CODE_MAP (JStr langLower))
      then inl (JStr langLower)
      else
        let v := obj_get LANGUAGE_NAME_TO_CODE (JStr langLower) in
        if truthy v then inl v else inl (JStr "en")
  | _ => inr "language.toLowerCase is not a function"
  end.

Section Handler.

Variable p : provider.
Variable upstream : vendor.
Variable production : bool.
Variable stack_frames : server_error -> list string.

(** [app.post('/chat')] of part_000 (lines 64-138). *)
Definition chat_handler (req : Request) : M HttpResponse :=
  let text := req_text req in
  let language := default_language (req_language req) in
  let history := default_history (req_history req) in
  let stepType := req_stepType req in
  if negb (truthy text) then ret (bad_request "Text is required") else
  if negb (truthy stepType) then ret (bad_request "stepType is required") else
  match normalizeLanguage language with
  | inr te => error_reply production stack_frames (TypeErrorThrown te)
  | inl normalizedLang =>
      workflow_step p upstream production stack_frames stepType text normalizedLang history
  end.

End Handler.

End Part000.

(** ** The oldest server copy [src/unnamed/part_001] *)

Module Part001.

Import Client Prompt Caller Server.

Section Handler.

Variable p : provider.
Variable upstream : vendor.

(** The [catch] of part_001 (lines 40-45): always status 500, with
    [error.message || 'Internal server error']. *)
Definition error_response (e : EnhancedError) : HttpResponse :=
  mkHttp (JNum 500)
    [("error", JStr (if String.eqb (en_message e) "" then "Internal server error"
                     else en_message e))].

(** [app.post('/chat')] of part_001 (lines 11-46).  [language] is passed on
    without normalisation.  In the direct branch the message content is
    [text]; the client is modelled on its string form, which is [text] itself
    for the string a JSON body carries. *)
Definition chat_handler (req : Request) : M HttpResponse :=
  let text := req_text req in
  let language := default_language (req_language req) in
  let history := default_history (req_history req) in
  let stepType := req_stepType req in
  if negb (truthy text) then ret (mkHttp (JNum 400) [("error", JStr "Text is required")]) else
  r <- (if truthy stepType then
          r <- processStepWithAI_js p upstream stepType text language history ;;
          ret (match r with
               | inl response => inl (format_step stepType response)
               | inr e => inr e
               end)
        else callAIAgent_js p upstream (to_str text) language history 0) ;;
  match r with
  | inl response => ret (mkHttp (JNum 200) [("response", JStr response); ("model", JStr MODEL)])
  | inr e => ret (error_response e)
  end.

End Handler.

End Part001.

(** * Sample inputs *)

Import Client.

(** A vendor that answers every call with the same thing. *)
Definition constant_vendor (r : vendor_result) : vendor := fun _ _ => r.

Definition error_429 : thrown :=
  ThrownObject (mkVendorError "Too Many Requests" (JNum 429) JUndefined JUndefined
                  None JUndefined None).

Definition limit_body_error : thrown :=
  ThrownObject (mkVendorError "Upstream request failed" (JNum 503) JUndefined JUndefined
                  None (JStr "Daily LIMIT reached") None).

Definition api_key_error : thrown :=
  ThrownObject (mkVendorError "invalid api key" (JNum 403) JUndefined JUndefined
                  None JUndefined None).

Definition cookie_error : thrown :=
  ThrownObject (mkVendorError "missing session cookie" (JNum 403) JUndefined JUndefined
                  None JUndefined None).

Definition sample_chunk : Book.Chunk := Book.mkChunk "english" "Chapter one.".

Definition constructor_request : Server.Request :=
  Server.mkRequest (JStr "hello") (JStr "constructor") None JUndefined.

Definition empty_request : Server.Request :=
  Server.mkRequest JUndefined JUndefined None JUndefined.

Definition book_history : list ChatMessage :=
  [mkMsg "user" "Who wrote the book?"; mkMsg "assistant" "The author of chapter one."].

Definition book_request : Server.Request :=
  Server.mkRequest (JStr "Tell me more") JUndefined (Some (Caller.HistoryArray book_history))
    JUndefined.

(** Example call sites of an error: the [new Error()] of [callAIAgent] after
    a retry. *)
Definition sample_frames (_ : Server.server_error) : list string :=
  ["    at callAIAgent (file:///app/src/aiService.js:166:27)";
   "    at async callAIAgent (file:///app/src/aiService.js:162:14)";
   "    at async processStepWithAI (file:///app/src/aiService.js:322:10)"].

(** Example call sites of the errors of part_000: its own [normalizeLanguage]
    throws the TypeError, the client the enhanced error. *)
Definition part000_frames (error : Server.server_error) : list string :=
  match error with
  | Server.TypeErrorThrown _ =>
      ["    at normalizeLanguage (file:///app/src/unnamed/part_000:43:31)";
       "    at file:///app/src/unnamed/part_000:83:28"]
  | Server.ClientError _ => sample_frames error
  end.

(** The ["error"] entry of a response body. *)
Definition body_error (r : Server.HttpResponse) : option jsval :=
  match find (fun kv => String.eqb (fst kv) "error") (Server.res_body r) with
  | Some (_, v) => Some v
  | None => None
  end.

(** A response body without its ["stack"] entry. *)
Definition drop_stack (body : list (string * jsval)) : list (string * jsval) :=
  filter (fun kv => negb (String.eqb (fst kv) "stack")) body.

(** ** Auxiliary definitions of the properties *)

(** The string is empty or starts with a non-white-space character. *)
Definition head_not_ws (s : string) : Prop :=
  match s with EmptyString => True | String c _ => is_ws c = false end.

(** The events of a client call that makes [k] retries from [rc]: a call,
    then [k] times a back-off sleep followed by the same call. *)
Fixpoint retry_trace (msgs : list ChatMessage) (rc k : nat) : list event :=
  match k with
  | O => [Send msgs]
  | S k' => Send msgs :: Sleep (backoff rc) :: retry_trace msgs (S rc) k'
  end.

(** The total time slept in a list of events. *)
Fixpoint sleep_total (evs : list event) : Z :=
  match evs with
  | [] => 0
  | Sleep ms :: r => ms + sleep_total r
  | Send _ :: r => sleep_total r
  end%Z.

(** The separator of [getBookContent]: ['\n\n---\n\n']. *)
Definition book_separator : string := Prompt.nl ++ Prompt.nl ++ "---" ++ Prompt.nl ++ Prompt.nl.

(** The five results of [formatEmotionResult]. *)
Definition emotion_labels : list string := ["Stressed"; "Happy"; "Sad"; "Angry"; "Neutral"].

(** * Properties *)

Module ClientFacts.

Import Client.

Section Loop.

Variable p : provider.
Variable upstream : vendor.

Lemma call_loop_retry : forall fuel text history rc w t,
  (rc < MAX_RETRIES)%nat ->
  p_try p (upstream (calls w) (build_messages text history)) = inr t ->
  p_isRateLimit p t = true ->
  call_loop p upstream (S fuel) text history rc w =
  call_loop p upstream fuel text history (S rc)
    (mkWorld (S (calls w))
       (events w ++ [Send (build_messages text history); Sleep (backoff rc)])).
Proof.
  intros fuel text history rc w t Hlt Htry Hrl.
  unfold MAX_RETRIES in *.
  cbn [call_loop]; unfold bind, send, sleep, ret; cbn.
  rewrite Htry, Hrl.
  assert (Hb : (rc <=? 2)%nat = true) by (apply Nat.leb_le; lia).
  rewrite Hb; cbn.
  rewrite <- app_assoc; reflexivity.
Qed.

Lemma call_loop_fail_now : forall fuel text history rc w t,
  p_try p (upstream (calls w) (build_messages text history)) = inr t ->
  p_isRateLimit p t = false ->
  call_loop p upstream fuel text history rc w =
  (inr (p_enhance p t rc),
   mkWorld (S (calls w)) (events w ++ [Send (build_messages text history)])).
Proof.
  intros fuel text history rc w t Htry Hrl.
  destruct fuel; cbn [call_loop]; unfold bind, send, ret; cbn;
    rewrite Htry, Hrl; reflexivity.
Qed.

Lemma call_loop_fail_exhausted : forall fuel text history rc w t,
  (MAX_RETRIES <= rc)%nat ->
  p_try p (upstream (calls w) (build_messages text history)) = inr t ->
  call_loop p upstream fuel text history rc w =
  (inr (p_enhance p t rc),
   mkWorld (S (calls w)) (events w ++ [Send (build_messages text history)])).
Proof.
  intros fuel text history rc w t Hle Htry.
  unfold MAX_RETRIES in *.
  assert (Hb : (rc <=? 2)%nat = false) by (apply Nat.leb_gt; lia).
  destruct fuel; cbn [call_loop]; unfold bind, send, ret; cbn;
    rewrite Htry, Hb, andb_false_r; reflexivity.
Qed.

(** The client only ever sends [build_messages text history], between sleeps. *)
Lemma call_loop_events : forall fuel text history rc w,
  exists new,
    events (snd (call_loop p upstream fuel text history rc w)) = (events w ++ new)%list /\
    (forall msgs, In (Send msgs) new -> msgs = build_messages text history).
Proof.
  induction fuel as [| fuel IH]; intros text history rc w;
    cbn [call_loop]; unfold bind, send, ret; cbn.
  - destruct (p_try p _) as [s | t];
      [| destruct (p_isRateLimit p t && _)%bool];
      eexists; (split; [reflexivity |]);
      intros msgs [H | []]; congruence.
  - destruct (p_try p _) as [s | t].
    + eexists; split; [reflexivity |]. intros msgs [H | []]; congruence.
    + destruct (p_isRateLimit p t && _)%bool.
      * unfold sleep; cbn.
        destruct (IH text history (S rc)
                    (mkWorld (S (calls w))
                       ((events w ++ [Send (build_messages text history)]) ++
                        [Sleep (backoff rc)]))) as [new [Hev Hin]].
        exists ([Send (build_messages text history); Sleep (backoff rc)] ++ new)%list.
        split.
        -- rewrite Hev; cbn. rewrite <- !app_assoc. reflexivity.
        -- intros msgs Hm. apply in_app_or in Hm as [[H | [H | []]] | H];
             [congruence | discriminate | auto].
      * eexists; split; [reflexivity |]. intros msgs [H | []]; congruence.
Qed.

End Loop.

Lemma try_failure : forall p t,
  In p [openrouter; groq] -> p_try p (VendorFailure t) = inr t.
Proof. intros p t [<- | [<- | []]]; reflexivity. Qed.

Lemma enhance_rate_limited_exhausted : forall p t,
  In p [openrouter; groq] -> p_isRateLimit p t = true ->
  en_message (p_enhance p t 3) = exhausted_message /\
  en_retryCount (p_enhance p t 3) = 3%nat /\
  en_isRateLimit (p_enhance p t 3) = true.
Proof.
  intros p t [<- | [<- | []]] Hrl; cbn in *;
    [unfold enhance_openrouter | unfold enhance_groq]; rewrite Hrl; auto.
Qed.

(** Only a rate-limited failure yields the retries-exhausted message. *)
Lemma enhance_exhausted_is_rate_limited : forall p t rc,
  In p [openrouter; groq] ->
  en_message (p_enhance p t rc) = exhausted_message ->
  en_isRateLimit (p_enhance p t rc) = true.
Proof.
  intros p t rc [<- | [<- | []]]; cbn;
    [unfold enhance_openrouter, isRateLimit_openrouter
    | unfold enhance_groq, isRateLimit_groq].
  all: destruct (code_is_429 _) eqn:E1; cbn; auto.
  all: destruct (includes (toLowerCase (extract_message t)) "rate") eqn:E2; cbn; auto.
  all: destruct (includes (toLowerCase (extract_message t)) "limit") eqn:E3; cbn; auto.
  all: try (destruct (includes (toLowerCase (extract_message t)) "quota") eqn:E4; cbn; auto).
  all: destruct (string_body_test _ _) eqn:E5; cbn; auto.
  all: repeat match goal with
       | |- context [if ?b then _ else _] => destruct b
       end; cbn; intro H; try discriminate H.
  all: rewrite H in E2; discriminate E2.
Qed.

Lemma call_loop_exhausted_is_rate_limited : forall p upstream fuel text history rc w e,
  In p [openrouter; groq] ->
  fst (call_loop p upstream fuel text history rc w) = inr e ->
  en_message e = exhausted_message -> en_isRateLimit e = true.
Proof.
  intros p upstream fuel; induction fuel as [| fuel IH];
    intros text history rc w e Hp; cbn [call_loop]; unfold bind, send, ret; cbn.
  - destruct (p_try p _) as [s | t]; [discriminate |].
    destruct (_ && _)%bool; intros [= <-]; apply enhance_exhausted_is_rate_limited; auto.
  - destruct (p_try p _) as [s | t]; [discriminate |].
    destruct (_ && _)%bool.
    + unfold sleep; cbn. apply IH; auto.
    + intros [= <-]; apply enhance_exhausted_is_rate_limited; auto.
Qed.

End ClientFacts.

Module CallerFacts.

Import Client ClientFacts Caller.

Section Throw.

Variable p : provider.

(** A client call whose [history.map] throws never calls the vendor: it only
    sleeps. *)
Lemma throw_loop_events : forall fuel error rc w,
  calls (snd (throw_loop p fuel error rc w)) = calls w /\
  exists new,
    events (snd (throw_loop p fuel error rc w)) = (events w ++ new)%list /\
    (forall msgs, ~ In (Send msgs) new).
Proof.
  assert (Hstay : forall w,
             calls w = calls w /\
             exists new, events w = (events w ++ new)%list /\
                         (forall msgs, ~ In (Send msgs) new)).
  { intros w; split; [reflexivity |].
    exists []; rewrite app_nil_r; split; [reflexivity | intros ? []]. }
  induction fuel as [| fuel IH]; intros error rc w; cbn [throw_loop].
  - destruct (_ && _)%bool; apply Hstay.
  - destruct (_ && _)%bool; [| apply Hstay].
    unfold bind, sleep; cbn [fst snd].
    destruct (IH error (S rc) (mkWorld (calls w) (events w ++ [Sleep (backoff rc)])))
      as [Hc [new [Hev Hin]]].
    split; [exact Hc |].
    exists (Sleep (backoff rc) :: new); split.
    + rewrite Hev; cbn. rewrite <- app_assoc; reflexivity.
    + intros msgs [H | H]; [discriminate | exact (Hin msgs H)].
Qed.

Lemma throw_loop_result : forall fuel error rc w,
  exists rc', fst (throw_loop p fuel error rc w) = inr (p_enhance p error rc').
Proof.
  induction fuel as [| fuel IH]; intros error rc w; cbn [throw_loop].
  - destruct (_ && _)%bool; eexists; reflexivity.
  - destruct (_ && _)%bool; [unfold bind, sleep; cbn; apply IH | eexists; reflexivity].
Qed.

Lemma throw_loop_not_rate_limited : forall fuel error rc w,
  p_isRateLimit p error = false ->
  throw_loop p fuel error rc w = (inr (p_enhance p error rc), w).
Proof. intros fuel error rc w H; destruct fuel; cbn [throw_loop]; rewrite H; reflexivity. Qed.

End Throw.

(** The client only ever sends the history array followed by the text. *)
Lemma callAIAgent_js_events : forall p upstream text language history rc w,
  exists new,
    events (snd (callAIAgent_js p upstream text language history rc w))
      = (events w ++ new)%list /\
    (forall msgs, In (Send msgs) new ->
       exists l, history = HistoryArray l /\ msgs = build_messages text l).
Proof.
  intros p upstream text language [l | v] rc w; cbn [callAIAgent_js].
  - unfold callAIAgent.
    destruct (call_loop_events p upstream (MAX_RETRIES - rc) text l rc w) as [new [Hev Hin]].
    exists new; split; [exact Hev |]. intros msgs Hm; exists l; split; auto.
  - destruct (throw_loop_events p (MAX_RETRIES - rc) (plain_error (history_map_error v)) rc w)
      as [_ [new [Hev Hin]]].
    exists new; split; [exact Hev |]. intros msgs Hm; exfalso; exact (Hin msgs Hm).
Qed.

Lemma callAIAgent_js_exhausted_is_rate_limited : forall p upstream text language history rc w e,
  In p [openrouter; groq] ->
  fst (callAIAgent_js p upstream text language history rc w) = inr e ->
  en_message e = exhausted_message -> en_isRateLimit e = true.
Proof.
  intros p upstream text language [l | v] rc w e Hp; cbn [callAIAgent_js].
  - unfold callAIAgent; apply call_loop_exhausted_is_rate_limited; exact Hp.
  - destruct (throw_loop_result p (MAX_RETRIES - rc) (plain_error (history_map_error v)) rc w)
      as [rc' ->].
    intros [= <-]; apply enhance_exhausted_is_rate_limited; exact Hp.
Qed.

(** The [TypeError] of [history.map] is never rate-limited, and both clients
    raise it with its own message and status 500. *)
Lemma history_error_enhanced : forall p v rc,
  In p [openrouter; groq] ->
  p_isRateLimit p (plain_error (history_map_error v)) = false /\
  p_enhance p (plain_error (history_map_error v)) rc
  = mkEnhanced (history_map_error v) (JNum 500) false (plain_error (history_map_error v)) rc.
Proof. intros p [] rc [<- | [<- | []]]; split; reflexivity. Qed.

End CallerFacts.

Import Client ClientFacts CallerFacts.

(** C1 (retry policy).  In both versions of [callAIAgent]: a rate-limited
    failure at [retryCount < 3] sleeps [min(2000 * 2^retryCount, 30000)] ms
    and re-runs the whole call with [retryCount + 1]; any failure that is not
    rate-limited is raised at once after a single vendor call; and against a
    vendor that always fails rate-limited, a call started at [retryCount = 0]
    makes exactly 4 vendor calls separated by sleeps of 2000, 4000 and 8000 ms,
    then raises the retries-exhausted error. *)
Theorem callAIAgent_retry_policy : forall p, In p [openrouter; groq] ->
  (forall upstream text language history rc w t,
     (rc < MAX_RETRIES)%nat ->
     p_try p (upstream (calls w) (build_messages text history)) = inr t ->
     p_isRateLimit p t = true ->
     callAIAgent p upstream text language history rc w =
     callAIAgent p upstream text language history (S rc)
       (mkWorld (S (calls w))
          (events w ++ [Send (build_messages text history); Sleep (backoff rc)])))
  /\ (forall upstream text language history rc w t,
     p_try p (upstream (calls w) (build_messages text history)) = inr t ->
     p_isRateLimit p t = false ->
     callAIAgent p upstream text language history rc w =
     (inr (p_enhance p t rc),
      mkWorld (S (calls w)) (events w ++ [Send (build_messages text history)])))
  /\ (forall upstream text language history w,
     (forall n msgs, exists t, upstream n msgs = VendorFailure t /\ p_isRateLimit p t = true) ->
     let m := build_messages text history in
     exists e,
       callAIAgent p upstream text language history 0 w =
       (inr e, mkWorld (4 + calls w)
                 (events w ++ [Send m; Sleep 2000; Send m; Sleep 4000;
                               Send m; Sleep 8000; Send m]))
       /\ en_message e = exhausted_message
       /\ en_retryCount e = 3%nat
       /\ en_isRateLimit e = true).
Proof.
  intros p Hp. split; [| split].
  - intros upstream text language history rc w t Hlt Htry Hrl.
    unfold callAIAgent.
    replace (MAX_RETRIES - rc)%nat with (S (MAX_RETRIES - S rc)) by
      (unfold MAX_RETRIES in *; lia).
    apply (call_loop_retry p upstream _ text history rc w t); assumption.
  - intros upstream text language history rc w t Htry Hrl.
    unfold callAIAgent.
    apply (call_loop_fail_now p upstream _ text history rc w t); assumption.
  - intros upstream text language history w Hup. cbv zeta.
    unfold callAIAgent; cbn [MAX_RETRIES Nat.sub].
    assert (Hstep : forall n, exists t,
               p_try p (upstream n (build_messages text history)) = inr t /\
               p_isRateLimit p t = true).
    { intro n. destruct (Hup n (build_messages text history)) as [t [Hu Hr]].
      exists t. rewrite Hu. split; [apply try_failure; exact Hp | exact Hr]. }
    destruct (Hstep (calls w)) as [t0 [H0 R0]].
    rewrite (call_loop_retry p upstream 2 text history 0 w t0
               ltac:(unfold MAX_RETRIES; lia) H0 R0).
    destruct (Hstep (S (calls w))) as [t1 [H1 R1]].
    erewrite (call_loop_retry p upstream 1 text history 1 _ t1);
      [| unfold MAX_RETRIES; lia | exact H1 | exact R1].
    destruct (Hstep (S (S (calls w)))) as [t2 [H2 R2]].
    erewrite (call_loop_retry p upstream 0 text history 2 _ t2);
      [| unfold MAX_RETRIES; lia | exact H2 | exact R2].
    destruct (Hstep (S (S (S (calls w))))) as [t3 [H3 _]].
    erewrite (call_loop_fail_exhausted p upstream 0 text history 3 _ t3);
      [| unfold MAX_RETRIES; lia | exact H3].
    destruct (Hup (S (S (S (calls w)))) (build_messages text history)) as [t3' [H3' R3]].
    rewrite H3', try_failure in H3 by exact Hp. injection H3 as <-.
    exists (p_enhance p t3' 3). split.
    + cbn [calls events]. rewrite <- !app_assoc. reflexivity.
    + apply enhance_rate_limited_exhausted; assumption.
Qed.

Lemma callAIAgent_retry_policy_witness :
  In openrouter [openrouter; groq] /\
  exists e,
    callAIAgent openrouter (constant_vendor (VendorFailure error_429)) "hello" JUndefined [] 0
      (mkWorld 0 []) =
    (inr e, mkWorld 4
              [Send [mkMsg "user" "hello"]; Sleep 2000; Send [mkMsg "user" "hello"];
               Sleep 4000; Send [mkMsg "user" "hello"]; Sleep 8000;
               Send [mkMsg "user" "hello"]])
    /\ en_message e = exhausted_message /\ en_retryCount e = 3%nat /\ en_isRateLimit e = true.
Proof.
  split; [left; reflexivity |].
  destruct (callAIAgent_retry_policy openrouter (or_introl eq_refl)) as [_ [_ H]].
  apply (H (constant_vendor (VendorFailure error_429)) "hello" JUndefined [] (mkWorld 0 [])).
  intros n msgs. exists error_429. split; reflexivity.
Defined.

Lemma code_is_429_iff : forall v, code_is_429 v = true <-> v = JNum 429.
Proof.
  intros []; cbn; split; try discriminate.
  - intro H; apply Z.eqb_eq in H; subst; reflexivity.
  - intros [= ->]; reflexivity.
Qed.

Lemma string_body_test_iff : forall body test,
  test "" = false ->
  string_body_test body test = true <->
  exists b, body = JStr b /\ test (toLowerCase b) = true.
Proof.
  intros body test Hnil. unfold string_body_test.
  destruct body as [| | b0 | z | s | l | | n |];
    try (rewrite andb_false_r; split; [discriminate | intros [b [Hb _]]; discriminate Hb]).
  cbn; split.
  - destruct (String.eqb_spec s ""); cbn; [discriminate |].
    intro H; exists s; auto.
  - intros [b [[= Heq] Hb]]; subst b.
    destruct (String.eqb_spec s ""); cbn; [subst; cbn in Hb; congruence | exact Hb].
Qed.

(** C2 (amended: rate-limit classification).  OpenRouter: a failure is
    rate-limited iff the extracted status code is the number 429, or the
    lower-cased extracted message contains "rate" or "limit", or the extracted
    error body is a string whose lower-cased form contains "rate".  Groq: the
    same with "quota" added to the message terms, and the body must be a string
    containing "rate" or "quota".  A body that is not a string is never
    inspected, and "limit" in the body does not count. *)
Theorem isRateLimit_classification : forall t,
  (isRateLimit_openrouter t = true <->
     extract_code_openrouter t = JNum 429 \/
     includes (toLowerCase (extract_message t)) "rate" = true \/
     includes (toLowerCase (extract_message t)) "limit" = true \/
     exists b, extract_body t = JStr b /\ includes (toLowerCase b) "rate" = true)
  /\
  (isRateLimit_groq t = true <->
     extract_code_groq t = JNum 429 \/
     includes (toLowerCase (extract_message t)) "rate" = true \/
     includes (toLowerCase (extract_message t)) "limit" = true \/
     includes (toLowerCase (extract_message t)) "quota" = true \/
     exists b, extract_body t = JStr b /\
       (includes (toLowerCase b) "rate" = true \/ includes (toLowerCase b) "quota" = true)).
Proof.
  intro t; split.
  - unfold isRateLimit_openrouter.
    rewrite !orb_true_iff, code_is_429_iff, string_body_test_iff by reflexivity.
    tauto.
  - unfold isRateLimit_groq.
    rewrite !orb_true_iff, code_is_429_iff, string_body_test_iff by reflexivity.
    split.
    + intros [[[[H | H] | H] | H] | [b [Hb H]]]; auto 6.
      apply orb_true_iff in H. right; right; right; right; eauto.
    + intros [H | [H | [H | [H | [b [Hb H]]]]]]; auto 6.
      right; exists b; split; [exact Hb | apply orb_true_iff; exact H].
Qed.

(** C2 counterexample: the body is a string that contains "limit", yet
    neither version classifies the failure as rate-limited. *)
Lemma isRateLimit_body_limit_ignored :
  extract_body limit_body_error = JStr "Daily LIMIT reached" /\
  includes (toLowerCase "Daily LIMIT reached") "limit" = true /\
  isRateLimit_openrouter limit_body_error = false /\
  isRateLimit_groq limit_body_error = false.
Proof. repeat split; reflexivity. Qed.

(** C3 (code_bug).  Both versions test the content for emptiness before
    trimming it: a completion whose content is only white space, or an empty
    array of parts, is accepted and returned as the empty string. *)
Theorem callAIAgent_accepts_blank_completion :
  fst (callAIAgent openrouter (constant_vendor (Completion (ContentString "   ")))
         "hello" JUndefined [] 0 (mkWorld 0 [])) = inl "" /\
  fst (callAIAgent groq (constant_vendor (Completion (ContentString "   ")))
         "hello" JUndefined [] 0 (mkWorld 0 [])) = inl "" /\
  fst (callAIAgent openrouter (constant_vendor (Completion (ContentParts [])))
         "hello" JUndefined [] 0 (mkWorld 0 [])) = inl "" /\
  fst (callAIAgent groq (constant_vendor (Completion (ContentParts [])))
         "hello" JUndefined [] 0 (mkWorld 0 [])) = inl "".
Proof. repeat split; reflexivity. Qed.

(** C8 counterexample: a non-rate-limited failure whose message contains
    "api key" keeps status 403 in the OpenRouter version, and one whose
    message contains "cookie" keeps status 403 in the Groq version. *)
Lemma auth_keywords_differ_by_version :
  fst (callAIAgent openrouter (constant_vendor (VendorFailure api_key_error))
         "hello" JUndefined [] 0 (mkWorld 0 [])) =
    inr (mkEnhanced "invalid api key" (JNum 403) false api_key_error 0) /\
  fst (callAIAgent groq (constant_vendor (VendorFailure cookie_error))
         "hello" JUndefined [] 0 (mkWorld 0 [])) =
    inr (mkEnhanced "missing session cookie" (JNum 403) false cookie_error 0).
Proof. split; reflexivity. Qed.

(** C8 (amended: authentication status).  When an attempt fails with a
    failure that is not rate-limited, [callAIAgent] raises at once.  The raised
    error has status 401 and the authentication message when the extracted
    message contains (case-sensitively) "cookie" or "auth" (OpenRouter) or
    "api key", "auth" or "unauthorized" (Groq).  Otherwise it has the status
    code extracted from the vendor error (500 when none is found). *)
Theorem callAIAgent_auth_status : forall upstream text language history rc w t,
  (p_try openrouter (upstream (calls w) (build_messages text history)) = inr t ->
   isRateLimit_openrouter t = false ->
   exists e,
     fst (callAIAgent openrouter upstream text language history rc w) = inr e /\
     if includes (extract_message t) "cookie" || includes (extract_message t) "auth"
     then en_statusCode e = JNum 401 /\
          en_message e = "Authentication error. Please check your API key in .env file."
     else en_statusCode e = extract_code_openrouter t)
  /\
  (p_try groq (upstream (calls w) (build_messages text history)) = inr t ->
   isRateLimit_groq t = false ->
   exists e,
     fst (callAIAgent groq upstream text language history rc w) = inr e /\
     if includes (extract_message t) "api key" || includes (extract_message t) "auth"
        || includes (extract_message t) "unauthorized"
     then en_statusCode e = JNum 401 /\
          en_message e = "Authentication error. Please check your GROQ_API_KEY in .env file."
     else en_statusCode e = extract_code_groq t).
Proof.
  intros upstream text language history rc w t; split; intros Htry Hrl;
    unfold callAIAgent.
  - rewrite (call_loop_fail_now openrouter upstream _ text history rc w t Htry Hrl).
    eexists; split; [reflexivity |].
    cbn [p_enhance openrouter]; unfold enhance_openrouter; rewrite Hrl.
    destruct (_ || _)%bool; [auto |].
    destruct (includes _ "provider"); reflexivity.
  - rewrite (call_loop_fail_now groq upstream _ text history rc w t Htry Hrl).
    eexists; split; [reflexivity |].
    cbn [p_enhance groq]; unfold enhance_groq; rewrite Hrl.
    destruct (_ || _ || _)%bool; [auto |].
    destruct (_ || _)%bool; reflexivity.
Qed.

Lemma callAIAgent_auth_status_witness :
  exists e,
    fst (callAIAgent openrouter (constant_vendor (VendorFailure cookie_error))
           "hello" JUndefined [] 0 (mkWorld 0 [])) = inr e /\
    en_statusCode e = JNum 401 /\
    en_message e = "Authentication error. Please check your API key in .env file.".
Proof.
  destruct (callAIAgent_auth_status (constant_vendor (VendorFailure cookie_error))
              "hello" JUndefined [] 0 (mkWorld 0 []) cookie_error) as [H _].
  destruct (H eq_refl eq_refl) as [e [He Hs]].
  exists e. split; [exact He | exact Hs].
Defined.

(** C5 (code_bug).  [normalizeLanguage] reads its two tables as plain
    object literals, so an input naming a property of [Object.prototype]
    (["constructor"], ["__proto__"], in any case and with surrounding blanks)
    is found in [LANGUAGE_NAME_TO_CODE] and returned instead of "en": the
    [Object] function and [Object.prototype].  The same holds for the copy in
    part_000.  With book chunks loaded, a book-chat request with language
    "constructor" then fails with a [TypeError] (500) in [getBookContent]. *)
Theorem normalizeLanguage_prototype_keys :
  BookService.normalizeLanguage (JStr "constructor") = inl (JFunction "Object") /\
  BookService.normalizeLanguage (JStr " Constructor ") = inl (JFunction "Object") /\
  BookService.normalizeLanguage (JStr "__proto__") = inl JObjectPrototype /\
  Part000.normalizeLanguage (JStr "constructor") = inl (JFunction "Object") /\
  (forall frames,
     fst (Server.chat_handler openrouter (constant_vendor (Completion (ContentString "ok")))
            true frames [sample_chunk] constructor_request (mkWorld 0 [])) =
     Server.mkHttp (JNum 500)
       [("error", JStr "language.toLowerCase is not a function"); ("statusCode", JNum 500)]).
Proof. repeat split; intros; reflexivity. Qed.

Lemma first_emotion_cases : forall r l,
  (exists pre e post,
     l = (pre ++ e :: post)%list /\ includes r e = true /\
     Forall (fun e' => includes r e' = false) pre /\
     Format.first_emotion r l = Some (capitalize e))
  \/ (Forall (fun e => includes r e = false) l /\ Format.first_emotion r l = None).
Proof.
  intro r; induction l as [| e l IH]; cbn.
  - right; split; [constructor | reflexivity].
  - destruct (includes r e) eqn:He.
    + left; exists [], e, l; repeat split; auto.
    + destruct IH as [[pre [e' [post [-> [H1 [H2 H3]]]]]] | [H1 H2]].
      * left; exists (e :: pre), e', post; repeat split; auto.
      * right; split; auto.
Qed.

(** C6.  [formatEmotionResult] lower-cases and trims its input, scans
    stressed, happy, sad, angry, neutral in that order and returns the first
    one contained in the input, capitalised; when none is contained it
    returns "Neutral" (in particular for the empty input). *)
Theorem formatEmotionResult_first_match : forall result,
  let r := trim (toLowerCase result) in
  ((exists pre e post,
      ["stressed"; "happy"; "sad"; "angry"; "neutral"] = (pre ++ e :: post)%list /\
      includes r e = true /\
      Forall (fun e' => includes r e' = false) pre /\
      Format.formatEmotionResult result = capitalize e)
   \/ (Forall (fun e => includes r e = false) ["stressed"; "happy"; "sad"; "angry"; "neutral"] /\
       Format.formatEmotionResult result = "Neutral"))
  /\ Format.formatEmotionResult "" = "Neutral".
Proof.
  intros result r; split; [| reflexivity].
  unfold Format.formatEmotionResult; fold r.
  destruct (first_emotion_cases r Format.emotions)
    as [[pre [e [post [Hl [H1 [H2 H3]]]]]] | [H1 H2]].
  - left; exists pre, e, post; rewrite H3; auto.
  - right; rewrite H2; auto.
Qed.

(** C7 (code_bug).  [formatCategoryResult] applies the white-space
    collapse [replace(/\s+/g, ' ')] to each category label, where it changes
    nothing, and not to the model's answer: an answer naming a category with a
    doubled space falls through to the default, though the collapsed answer
    matches. *)
Theorem formatCategoryResult_keeps_input_whitespace :
  Format.formatCategoryResult "Work  &  Career" = "Personal & General" /\
  Format.formatCategoryResult (replace_ws_runs (trim (toLowerCase "Work  &  Career")))
    = "Work & Career" /\
  map (fun c => replace_ws_runs (toLowerCase c)) Format.categories
    = map toLowerCase Format.categories.
Proof. repeat split; reflexivity. Qed.

(** C9.  POST /chat answers 400 "Text is required" to a body whose [text] is
    missing or falsy, without calling the vendor (the world is unchanged), in
    [src/server.js] and in part_000; part_000 answers 400
    "stepType is required" to a body with a text but no [stepType]. *)
Theorem chat_requires_text_and_stepType :
  (forall p upstream production frames allChunks req w,
     truthy (Server.req_text req) = false ->
     Server.chat_handler p upstream production frames allChunks req w =
     (Server.bad_request "Text is required", w))
  /\ (forall p upstream production frames req w,
     truthy (Server.req_text req) = false ->
     Part000.chat_handler p upstream production frames req w =
     (Server.bad_request "Text is required", w))
  /\ (forall p upstream production frames req w,
     truthy (Server.req_text req) = true ->
     truthy (Server.req_stepType req) = false ->
     Part000.chat_handler p upstream production frames req w =
     (Server.bad_request "stepType is required", w))
  /\ (forall msg, Server.bad_request msg =
       Server.mkHttp (JNum 400) [("error", JStr msg); ("success", JBool false)]).
Proof.
  split; [| split; [| split]].
  - intros p upstream production frames allChunks req w H.
    unfold Server.chat_handler; rewrite H; reflexivity.
  - intros p upstream production frames req w H.
    unfold Part000.chat_handler; rewrite H; reflexivity.
  - intros p upstream production frames req w H1 H2.
    unfold Part000.chat_handler; rewrite H1, H2; reflexivity.
  - reflexivity.
Qed.

Lemma chat_requires_text_and_stepType_witness :
  Server.chat_handler openrouter (constant_vendor (Completion (ContentString "ok")))
    false sample_frames [] empty_request (mkWorld 0 []) =
  (Server.bad_request "Text is required", mkWorld 0 []) /\
  Part000.chat_handler openrouter (constant_vendor (Completion (ContentString "ok")))
    false sample_frames (Server.mkRequest (JStr "hello") JUndefined None JUndefined)
    (mkWorld 0 []) =
  (Server.bad_request "stepType is required", mkWorld 0 []).
Proof.
  destruct chat_requires_text_and_stepType as [H1 [_ [H3 _]]].
  split; [apply H1 | apply H3]; reflexivity.
Defined.

(** ** Handler facts *)

Lemma prefix_app_self : forall s t, prefix s (s ++ t) = true.
Proof.
  induction s as [| a s IH]; intro t; cbn; [destruct t; reflexivity |].
  destruct (ascii_dec a a) as [_ | n]; [apply IH | contradiction].
Qed.

Lemma includes_app_self : forall n t, includes (n ++ t) n = true.
Proof.
  intros n t; destruct n as [| a n]; cbn; [destruct t; reflexivity |].
  destruct (ascii_dec a a) as [_ | c]; [| contradiction].
  rewrite prefix_app_self; reflexivity.
Qed.

Lemma includes_app_r : forall a b n, includes b n = true -> includes (a ++ b) n = true.
Proof.
  induction a as [| c a IH]; intros b n H; cbn [append]; [exact H |].
  cbn [includes]; rewrite (IH b n H), orb_true_r; reflexivity.
Qed.

Lemma book_prompt_has_history : forall bookContent question language history,
  includes (Prompt.getBookChatbotPrompt bookContent question language history)
           (Prompt.formatChatHistory history) = true.
Proof.
  intros; unfold Prompt.getBookChatbotPrompt, Prompt.book_prompt.
  do 3 apply includes_app_r. apply includes_app_self.
Qed.

Lemma build_messages_history : forall text history,
  build_messages text history = (history ++ [mkMsg "user" text])%list.
Proof.
  intros text history; unfold build_messages; f_equal.
  induction history as [| [r c] h IH]; cbn; [reflexivity | rewrite IH; reflexivity].
Qed.

(** The world after a step that returns without calling the vendor. *)
Ltac no_call := exists []; rewrite app_nil_r; split; [reflexivity | intros ? []].

(** The events a [callAIAgent] run adds when the continuation leaves the
    world alone. *)
Lemma bind_call_events : forall p upstream text language history
    (k : string + EnhancedError -> M Server.HttpResponse) w,
  (forall r w', snd (k r w') = w') ->
  exists new,
    events (snd (bind (callAIAgent p upstream text language history 0) k w))
      = (events w ++ new)%list /\
    (forall msgs, In (Send msgs) new -> msgs = build_messages text history).
Proof.
  intros p upstream text language history k w Hk; unfold bind, callAIAgent.
  destruct (call_loop_events p upstream (MAX_RETRIES - 0) text history 0 w) as [new [Hev Hin]].
  destruct (call_loop p upstream _ text history 0 w) as [r w'] eqn:E.
  rewrite Hk. exists new; split; [exact Hev | exact Hin].
Qed.

Lemma bind_call_js_events : forall p upstream text language history
    (k : string + EnhancedError -> M Server.HttpResponse) w,
  (forall r w', snd (k r w') = w') ->
  exists new,
    events (snd (bind (Caller.callAIAgent_js p upstream text language history 0) k w))
      = (events w ++ new)%list /\
    (forall msgs, In (Send msgs) new ->
       exists l, history = Caller.HistoryArray l /\ msgs = build_messages text l).
Proof.
  intros p upstream text language history k w Hk; unfold bind.
  destruct (callAIAgent_js_events p upstream text language history 0 w) as [new [Hev Hin]].
  destruct (Caller.callAIAgent_js p upstream text language history 0 w) as [r w'].
  rewrite Hk. exists new; split; [exact Hev | exact Hin].
Qed.

Ltac call_events new Hev Hin :=
  cbv zeta;
  match goal with
  | |- exists n, events (snd (bind (callAIAgent ?p ?u ?t ?l ?h 0) ?k ?w)) = _ /\ _ =>
      destruct (bind_call_events p u t l h k w) as [new [Hev Hin]];
      [intros [] ?; reflexivity | exists new; split; [exact Hev |]]
  | |- exists n, events (snd (bind (Caller.callAIAgent_js ?p ?u ?t ?l ?h 0) ?k ?w)) = _ /\ _ =>
      destruct (bind_call_js_events p u t l h k w) as [new [Hev Hin]];
      [intros [] ?; reflexivity | exists new; split; [exact Hev |]]
  end.

Lemma getBookChatbotPrompt_js_array : forall bookContent question language h,
  Caller.getBookChatbotPrompt_js bookContent question language (Caller.HistoryArray h)
  = inl (Prompt.getBookChatbotPrompt bookContent question language h).
Proof. reflexivity. Qed.

(** C4 (amended: outgoing messages).  In every workflow operation (both
    handlers), each vendor call sends the caller's history array unchanged and
    in order, followed by one user message holding the step prompt built from
    [stepType], [text] and the normalised language; a history that is not an
    array sends nothing.  In the book-chat path of [src/server.js] ([stepType]
    absent or "book_chat") the history is not sent as messages: each vendor
    call sends a single user message holding the book prompt, which embeds the
    rendered transcript [formatChatHistory(history)]. *)
Theorem chat_outgoing_messages :
  (forall p upstream production frames allChunks req w,
     let text := Server.req_text req in
     let history := Server.default_history (Server.req_history req) in
     let stepType := Server.req_stepType req in
     exists new,
       events (snd (Server.chat_handler p upstream production frames allChunks req w))
         = (events w ++ new)%list /\
       forall msgs, In (Send msgs) new ->
         exists lang,
           BookService.normalizeLanguage (Server.default_language (Server.req_language req))
             = inl lang /\
           if Book.isBookChatbotRequest stepType
           then exists bookContent prompt,
                  Book.getBookContent allChunks lang = inl bookContent /\
                  Caller.getBookChatbotPrompt_js (JStr bookContent) text lang history
                    = inl prompt /\
                  msgs = [mkMsg "user" prompt] /\
                  (forall h, history = Caller.HistoryArray h ->
                     prompt = Prompt.getBookChatbotPrompt (JStr bookContent) text lang h /\
                     includes prompt (Prompt.formatChatHistory h) = true)
           else exists h, history = Caller.HistoryArray h /\
                  msgs = (h ++ [mkMsg "user" (Prompt.step_prompt stepType text lang)])%list)
  /\
  (forall p upstream production frames req w,
     let text := Server.req_text req in
     let history := Server.default_history (Server.req_history req) in
     let stepType := Server.req_stepType req in
     exists new,
       events (snd (Part000.chat_handler p upstream production frames req w))
         = (events w ++ new)%list /\
       forall msgs, In (Send msgs) new ->
         exists lang,
           Part000.normalizeLanguage (Server.default_language (Server.req_language req))
             = inl lang /\
           exists h, history = Caller.HistoryArray h /\
             msgs = (h ++ [mkMsg "user" (Prompt.step_prompt stepType text lang)])%list).
Proof.
  split.
  - intros p upstream production frames allChunks req w text history stepType.
    unfold Server.chat_handler; fold text history stepType.
    destruct (negb (truthy text)); [cbn; no_call |].
    destruct (BookService.normalizeLanguage _) as [lang | te] eqn:En; [| cbn; no_call].
    destruct (Book.isBookChatbotRequest stepType).
    + destruct (Book.getBookContent allChunks lang) as [bc | te] eqn:Eb; [| cbn; no_call].
      destruct (Caller.getBookChatbotPrompt_js (JStr bc) text lang history)
        as [prompt | te] eqn:Ep; [| cbn; no_call].
      call_events new Hev Hin.
      intros msgs Hm; rewrite (Hin msgs Hm).
      exists lang; split; [first [exact En | reflexivity] |].
      exists bc, prompt; split; [first [exact Eb | reflexivity] | split; [first [exact Ep | reflexivity] | split; [reflexivity |]]].
      intros h Hh; rewrite Hh, getBookChatbotPrompt_js_array in Ep.
      injection Ep as <-; split; [reflexivity | apply book_prompt_has_history].
    + unfold Server.workflow_step, Caller.processStepWithAI_js.
      call_events new Hev Hin.
      intros msgs Hm; destruct (Hin msgs Hm) as [h [Hh ->]].
      exists lang; split; [first [exact En | reflexivity] |].
      exists h; split; [exact Hh | apply build_messages_history].
  - intros p upstream production frames req w text history stepType.
    unfold Part000.chat_handler; fold text history stepType.
    destruct (negb (truthy text)); [cbn; no_call |].
    destruct (negb (truthy stepType)); [cbn; no_call |].
    destruct (Part000.normalizeLanguage _) as [lang | te] eqn:En; [| cbn; no_call].
    unfold Server.workflow_step, Caller.processStepWithAI_js.
    call_events new Hev Hin.
    intros msgs Hm; destruct (Hin msgs Hm) as [h [Hh ->]].
    exists lang; split; [first [exact En | reflexivity] |].
    exists h; split; [exact Hh | apply build_messages_history].
Qed.

(** C4 counterexample: a book-chat request with a two-message history; the
    single vendor call sends one message, not the history followed by the
    prompt. *)
Lemma book_chat_history_not_in_messages :
  ~ (forall msgs,
       In (Send msgs)
          (events (snd (Server.chat_handler openrouter
                          (constant_vendor (Completion (ContentString "An answer.")))
                          true sample_frames [] book_request (mkWorld 0 [])))) ->
       exists prompt, msgs = (book_history ++ [mkMsg "user" prompt])%list).
Proof.
  intro H.
  assert (Hin : In (Send [mkMsg "user" (Prompt.getBookChatbotPrompt (JStr "") (JStr "Tell me more")
                                          (JStr "en") book_history)])
                   (events (snd (Server.chat_handler openrouter
                          (constant_vendor (Completion (ContentString "An answer.")))
                          true sample_frames [] book_request (mkWorld 0 []))))).
  { vm_compute. left. reflexivity. }
  destruct (H _ Hin) as [prompt Hp].
  apply (f_equal (@length ChatMessage)) in Hp. discriminate Hp.
Qed.

Lemma chat_outgoing_messages_witness :
  exists new,
    events (snd (Part000.chat_handler openrouter
                   (constant_vendor (Completion (ContentString "Happy")))
                   true sample_frames
                   (Server.mkRequest (JStr "hello") JUndefined
                      (Some (Caller.HistoryArray book_history)) (JStr "detect_emotion"))
                   (mkWorld 0 [])))
      = (events (mkWorld 0 []) ++ new)%list /\
    forall msgs, In (Send msgs) new ->
      exists lang,
        Part000.normalizeLanguage (Server.default_language JUndefined) = inl lang /\
        exists h, Caller.HistoryArray book_history = Caller.HistoryArray h /\
          msgs = (h ++ [mkMsg "user" (Prompt.step_prompt (JStr "detect_emotion")
                                         (JStr "hello") lang)])%list.
Proof.
  destruct chat_outgoing_messages as [_ H].
  apply (H openrouter (constant_vendor (Completion (ContentString "Happy"))) true sample_frames
           (Server.mkRequest (JStr "hello") JUndefined (Some (Caller.HistoryArray book_history))
              (JStr "detect_emotion")) (mkWorld 0 [])).
Defined.

Lemma chat_error_field : forall production frames error,
  body_error (Server.chat_error_response production frames error) =
  Some (JStr
    (if (match error with Server.ClientError e => en_isRateLimit e | _ => false end)
        || code_is_429 (Server.res_status (Server.chat_error_response production frames error))
     then Server.rate_limit_text
     else
       let m := Server.error_message error in
       if String.eqb m "" then "Internal server error" else m)).
Proof. intros production frames []; reflexivity. Qed.

Lemma error_field_not_exhausted : forall production frames error,
  (match error with
   | Server.ClientError e => en_message e = exhausted_message -> en_isRateLimit e = true
   | Server.TypeErrorThrown m => m <> exhausted_message
   end) ->
  body_error (Server.chat_error_response production frames error)
    <> Some (JStr exhausted_message).
Proof.
  intros production frames error Hinv; rewrite chat_error_field.
  destruct (_ || _)%bool eqn:E; [discriminate |].
  apply orb_false_iff in E as [E1 _].
  destruct error as [e | m]; cbn zeta; cbn [Server.error_message].
  - destruct (String.eqb (en_message e) ""); [discriminate |].
    intros [= H]. rewrite (Hinv H) in E1; discriminate.
  - destruct (String.eqb m ""); [discriminate |].
    intros [= H]; exact (Hinv H).
Qed.

Lemma normalizeLanguage_error : forall l te,
  BookService.normalizeLanguage l = inr te -> te = "language.toLowerCase is not a function".
Proof.
  intros l te; unfold BookService.normalizeLanguage.
  destruct (negb (truthy l)); [discriminate |].
  destruct l; try (intros [= <-]; reflexivity).
  cbv zeta; destruct (_ && _)%bool; [discriminate |].
  destruct (truthy _); discriminate.
Qed.

Lemma part000_normalizeLanguage_error : forall l te,
  Part000.normalizeLanguage l = inr te -> te = "language.toLowerCase is not a function".
Proof.
  intros l te; unfold Part000.normalizeLanguage.
  destruct (negb (truthy l)); [discriminate |].
  destruct l; try (intros [= <-]; reflexivity).
  cbv zeta; destruct (_ && _)%bool; [discriminate |].
  destruct (truthy _); discriminate.
Qed.

Lemma getBookContent_error : forall chunks l te,
  Book.getBookContent chunks l = inr te ->
  te = "language.toLowerCase is not a function" \/ te = "langKey.toLowerCase is not a function".
Proof.
  intros chunks l te; unfold Book.getBookContent.
  destruct chunks; [discriminate |].
  destruct (BookService.normalizeLanguage l) as [code | te'] eqn:En;
    [| intros [= <-]; left; exact (normalizeLanguage_error _ _ En)].
  cbv zeta.
  destruct (truthy (obj_get BookService.BOOK_LANGUAGE_MAP code)).
  - destruct (obj_get BookService.BOOK_LANGUAGE_MAP code); try (intros [= <-]; auto).
    destruct (filter _ _); discriminate.
  - destruct l; try (intros [= <-]; auto).
    destruct (filter _ _); discriminate.
Qed.

Lemma getBookChatbotPrompt_js_error : forall bookContent question language history te,
  Caller.getBookChatbotPrompt_js bookContent question language history = inr te ->
  te = "history.map is not a function".
Proof.
  intros bookContent question language [h | v] te; unfold Caller.getBookChatbotPrompt_js;
    cbn [Caller.formatChatHistory_js]; [discriminate |].
  destruct (negb (Caller.non_array_truthy v)); [discriminate | intros [= <-]; reflexivity].
Qed.

Ltac type_error_case :=
  match goal with
  | H : BookService.normalizeLanguage _ = inr ?te |- _ =>
      apply normalizeLanguage_error in H; subst te;
      apply error_field_not_exhausted; discriminate
  | H : Part000.normalizeLanguage _ = inr ?te |- _ =>
      apply part000_normalizeLanguage_error in H; subst te;
      apply error_field_not_exhausted; discriminate
  | H : Book.getBookContent _ _ = inr ?te |- _ =>
      apply getBookContent_error in H as [-> | ->];
      apply error_field_not_exhausted; discriminate
  | H : Caller.getBookChatbotPrompt_js _ _ _ _ = inr ?te |- _ =>
      apply getBookChatbotPrompt_js_error in H; subst te;
      apply error_field_not_exhausted; discriminate
  end.

Ltac client_case p Hp :=
  unfold bind;
  match goal with
  | |- context [callAIAgent ?q ?u ?t ?l ?h 0 ?w] =>
      destruct (callAIAgent q u t l h 0 w) as [[r | e] w'] eqn:E;
      [ cbn; discriminate
      | apply error_field_not_exhausted; cbn;
        apply (call_loop_exhausted_is_rate_limited q u (MAX_RETRIES - 0) t h 0 w e Hp);
        unfold callAIAgent in E; rewrite E; reflexivity ]
  | |- context [Caller.callAIAgent_js ?q ?u ?t ?l ?h 0 ?w] =>
      destruct (Caller.callAIAgent_js q u t l h 0 w) as [[r | e] w'] eqn:E;
      [ cbn; discriminate
      | apply error_field_not_exhausted; cbn;
        apply (callAIAgent_js_exhausted_is_rate_limited q u t l h 0 w e Hp);
        rewrite E; reflexivity ]
  end.

Lemma string_app_nil_r : forall s : string, s ++ "" = s.
Proof. induction s as [| c s IH]; cbn; [reflexivity | rewrite IH; reflexivity]. Qed.

Lemma split_char_none : forall c0 a,
  existsb (fun c => Ascii.eqb c c0) (list_ascii_of_string a) = false ->
  Server.split_char c0 a = [a].
Proof.
  intros c0; induction a as [| c a IH]; intros H; cbn in H |- *; [reflexivity |].
  apply orb_false_iff in H as [H1 H2]. rewrite IH by exact H2. rewrite H1; reflexivity.
Qed.

Lemma split_char_app : forall c0 a b,
  existsb (fun c => Ascii.eqb c c0) (list_ascii_of_string a) = false ->
  Server.split_char c0 (a ++ String c0 b) = a :: Server.split_char c0 b.
Proof.
  intros c0; induction a as [| c a IH]; intros b H; cbn in H |- *.
  - rewrite (proj2 (Ascii.eqb_eq c0 c0) eq_refl); reflexivity.
  - apply orb_false_iff in H as [H1 H2]. rewrite IH by exact H2. rewrite H1; reflexivity.
Qed.

(** The [stack] field starts with the first line of the stack. *)
Lemma stack_field_first_line : forall header frames,
  existsb (fun c => Ascii.eqb c (ascii_of_nat 10)) (list_ascii_of_string header) = false ->
  exists rest, Server.stack_field (String.concat Prompt.nl (header :: frames)) = header ++ rest.
Proof.
  intros header [| f fs] H; unfold Server.stack_field.
  - cbn [String.concat]. rewrite split_char_none by exact H.
    exists ""; cbn. symmetry; apply string_app_nil_r.
  - change (String.concat Prompt.nl (header :: f :: fs))
      with (header ++ String (ascii_of_nat 10) (String.concat Prompt.nl (f :: fs))).
    rewrite split_char_app by exact H.
    generalize (Server.split_char (ascii_of_nat 10) (String.concat Prompt.nl (f :: fs))).
    intros [| y [| y' l]]; cbn [firstn String.concat];
      [exists ""; symmetry; apply string_app_nil_r | eexists; reflexivity | eexists; reflexivity].
Qed.

Lemma error_stack_nonempty : forall error frames,
  String.eqb (Server.error_stack error frames) "" = false.
Proof.
  intros [e | m] [| f fs]; unfold Server.error_stack; cbn [Server.error_message Server.error_name];
    [destruct (String.eqb (en_message e) "") | destruct (String.eqb (en_message e) "")
    | destruct (String.eqb m "") | destruct (String.eqb m "")]; reflexivity.
Qed.

(** C10 (amended: rate-limit message).  In the error path of POST /chat
    ([src/server.js] and part_000), an error with [isRateLimit] set or status
    429 is answered with the fixed text "Rate limit exceeded. Please wait 10-15
    seconds and try again. The free model has usage limits." as its ["error"],
    whatever its retry count, so no response of either handler carries the
    client's retries-exhausted message as its ["error"].  In production an
    error body has only the fields ["error"] and ["statusCode"].  Outside
    production the [catch] adds a [stack] field whose first line is
    "Error: " followed by the error's final message: for an error that carries
    the retries-exhausted message, that message is in the body. *)
Theorem chat_rate_limit_message :
  (forall production frames error,
     (match error with Server.ClientError e => en_isRateLimit e | _ => false end = true
      \/ code_is_429 (Server.res_status (Server.chat_error_response production frames error))
         = true) ->
     body_error (Server.chat_error_response production frames error)
       = Some (JStr Server.rate_limit_text))
  /\
  (forall p upstream production frames allChunks req w,
     In p [openrouter; groq] ->
     body_error (fst (Server.chat_handler p upstream production frames allChunks req w))
       <> Some (JStr exhausted_message))
  /\
  (forall p upstream production frames req w,
     In p [openrouter; groq] ->
     body_error (fst (Part000.chat_handler p upstream production frames req w))
       <> Some (JStr exhausted_message))
  /\
  (forall frames error,
     map fst (Server.res_body (Server.chat_error_response true frames error))
       = ["error"; "statusCode"])
  /\
  (forall frames e,
     en_message e = exhausted_message ->
     exists rest,
       In ("stack", JStr ("Error: " ++ exhausted_message ++ rest))
          (Server.res_body (Server.chat_error_response false frames (Server.ClientError e)))).
Proof.
  split; [| split; [| split; [| split]]].
  - intros production frames error H; rewrite chat_error_field.
    destruct H as [H | H]; rewrite H; [| rewrite orb_true_r]; reflexivity.
  - intros p upstream production frames allChunks req w Hp.
    unfold Server.chat_handler.
    destruct (negb (truthy (Server.req_text req))); [cbn; discriminate |].
    destruct (BookService.normalizeLanguage _) as [lang | te] eqn:En; [| type_error_case].
    destruct (Book.isBookChatbotRequest _).
    + destruct (Book.getBookContent allChunks lang) as [bc | te] eqn:Eb; [| type_error_case].
      destruct (Caller.getBookChatbotPrompt_js _ _ _ _) as [prompt | te] eqn:Ep;
        [| type_error_case].
      client_case p Hp.
    + unfold Server.workflow_step, Caller.processStepWithAI_js. client_case p Hp.
  - intros p upstream production frames req w Hp.
    unfold Part000.chat_handler.
    destruct (negb (truthy (Server.req_text req))); [cbn; discriminate |].
    destruct (negb (truthy (Server.req_stepType req))); [cbn; discriminate |].
    destruct (Part000.normalizeLanguage _) as [lang | te] eqn:En; [| type_error_case].
    unfold Server.workflow_step, Caller.processStepWithAI_js. client_case p Hp.
  - intros frames []; reflexivity.
  - intros frames e He.
    destruct (stack_field_first_line ("Error: " ++ exhausted_message) frames eq_refl)
      as [rest Hr].
    exists rest.
    assert (Hs : Server.error_stack (Server.ClientError e) frames
                 = String.concat Prompt.nl (("Error: " ++ exhausted_message) :: frames)).
    { unfold Server.error_stack; cbn [Server.error_message Server.error_name].
      rewrite He; reflexivity. }
    unfold Server.chat_error_response; cbv zeta; rewrite error_stack_nonempty, Hs, Hr.
    cbn [Server.res_body].
    apply in_or_app; right; apply in_or_app; right; left; reflexivity.
Qed.

(** C10 counterexample: outside production, a workflow request against a
    vendor that always answers 429 gets the fixed text as its ["error"], and
    the retries-exhausted message in its [stack] field. *)
Lemma chat_stack_carries_exhausted_message :
  let r := fst (Server.chat_handler openrouter (constant_vendor (VendorFailure error_429))
                  false sample_frames []
                  (Server.mkRequest (JStr "hello") JUndefined None (JStr "summarize"))
                  (mkWorld 0 [])) in
  Server.res_status r = JNum 429 /\
  body_error r = Some (JStr Server.rate_limit_text) /\
  In ("stack", JStr ("Error: " ++ exhausted_message ++ Prompt.nl ++
                     "    at callAIAgent (file:///app/src/aiService.js:166:27)" ++ Prompt.nl ++
                     "    at async callAIAgent (file:///app/src/aiService.js:162:14)"))
     (Server.res_body r).
Proof. vm_compute. split; [reflexivity | split; [reflexivity | right; right; right; left; reflexivity]]. Qed.

Lemma chat_rate_limit_message_witness :
  In openrouter [openrouter; groq] /\
  body_error (fst (Server.chat_handler openrouter (constant_vendor (VendorFailure error_429))
                     false sample_frames []
                     (Server.mkRequest (JStr "hello") JUndefined None (JStr "summarize"))
                     (mkWorld 0 [])))
    <> Some (JStr exhausted_message) /\
  body_error (Server.chat_error_response true []
                (Server.ClientError (mkEnhanced exhausted_message (JNum 429) true error_429 3)))
    = Some (JStr Server.rate_limit_text) /\
  en_message (mkEnhanced exhausted_message (JNum 429) true error_429 3) = exhausted_message /\
  exists rest,
    In ("stack", JStr ("Error: " ++ exhausted_message ++ rest))
       (Server.res_body (Server.chat_error_response false []
          (Server.ClientError (mkEnhanced exhausted_message (JNum 429) true error_429 3)))).
Proof.
  destruct chat_rate_limit_message as [H1 [H2 [_ [_ H5]]]].
  assert (Hp : In openrouter [openrouter; groq]) by (left; reflexivity).
  split; [exact Hp | split; [| split; [| split; [reflexivity |]]]].
  - apply H2; exact Hp.
  - apply H1; left; reflexivity.
  - apply H5; reflexivity.
Defined.

(** * Further properties of the code *)

Lemma lower_char_idem : forall c, lower_char (lower_char c) = lower_char c.
Proof. intros [[] [] [] [] [] [] [] []]; reflexivity. Qed.

Lemma is_ws_lower_char : forall c, is_ws (lower_char c) = is_ws c.
Proof. intros [[] [] [] [] [] [] [] []]; reflexivity. Qed.

Lemma toLowerCase_idem : forall s, toLowerCase (toLowerCase s) = toLowerCase s.
Proof. induction s; cbn; [reflexivity | now rewrite lower_char_idem, IHs]. Qed.

Lemma trim_start_toLowerCase : forall s, trim_start (toLowerCase s) = toLowerCase (trim_start s).
Proof.
  induction s as [| c s IH]; cbn; [reflexivity |].
  rewrite is_ws_lower_char; destruct (is_ws c); [exact IH | reflexivity].
Qed.

Lemma list_ascii_of_string_app : forall s t,
  list_ascii_of_string (s ++ t) = (list_ascii_of_string s ++ list_ascii_of_string t)%list.
Proof. induction s; intros; cbn; [reflexivity | now rewrite IHs]. Qed.

Lemma string_of_list_ascii_app : forall l m,
  string_of_list_ascii (l ++ m) = string_of_list_ascii l ++ string_of_list_ascii m.
Proof. induction l; intros; cbn; [reflexivity | now rewrite IHl]. Qed.

Lemma rev_string_involutive : forall s, rev_string (rev_string s) = s.
Proof.
  intros s; unfold rev_string.
  now rewrite list_ascii_of_string_of_list_ascii, rev_involutive, string_of_list_ascii_of_string.
Qed.

Lemma rev_string_app : forall s t, rev_string (s ++ t) = rev_string t ++ rev_string s.
Proof.
  intros s t; unfold rev_string.
  now rewrite list_ascii_of_string_app, rev_app_distr, string_of_list_ascii_app.
Qed.

Lemma toLowerCase_list : forall s,
  list_ascii_of_string (toLowerCase s) = map lower_char (list_ascii_of_string s).
Proof. induction s; cbn; [reflexivity | now rewrite IHs]. Qed.

Lemma toLowerCase_of_list : forall l,
  toLowerCase (string_of_list_ascii l) = string_of_list_ascii (map lower_char l).
Proof. induction l; cbn; [reflexivity | now rewrite IHl]. Qed.

Lemma rev_string_toLowerCase : forall s, rev_string (toLowerCase s) = toLowerCase (rev_string s).
Proof.
  intros s; unfold rev_string.
  now rewrite toLowerCase_list, toLowerCase_of_list, map_rev.
Qed.

Lemma trim_toLowerCase : forall s, trim (toLowerCase s) = toLowerCase (trim s).
Proof.
  intros s; unfold trim, trim_end.
  now rewrite trim_start_toLowerCase, rev_string_toLowerCase, trim_start_toLowerCase,
    rev_string_toLowerCase.
Qed.

Lemma trim_start_fix : forall s, head_not_ws s -> trim_start s = s.
Proof. intros [| c s] H; cbn in *; [reflexivity | now rewrite H]. Qed.

Lemma trim_start_head : forall s, head_not_ws (trim_start s).
Proof.
  induction s as [| c s IH]; cbn; [exact I |].
  destruct (is_ws c) eqn:E; [exact IH | exact E].
Qed.

Lemma trim_start_idem : forall s, trim_start (trim_start s) = trim_start s.
Proof. intros s; apply trim_start_fix, trim_start_head. Qed.

Lemma trim_start_split : forall s, exists pre, s = pre ++ trim_start s.
Proof.
  induction s as [| c s [pre IH]]; cbn; [now exists "" |].
  destruct (is_ws c); [exists (String c pre); cbn; now f_equal | now exists ""].
Qed.

Lemma trim_start_rev_fix : forall u, trim_start u = u ->
  trim_start (rev_string (trim_start (rev_string u))) = rev_string (trim_start (rev_string u)).
Proof.
  intros u Hu.
  destruct (trim_start_split (rev_string u)) as [pre Hpre].
  assert (Hu' : u = rev_string (trim_start (rev_string u)) ++ rev_string pre).
  { rewrite <- rev_string_app, <- Hpre, rev_string_involutive; reflexivity. }
  apply trim_start_fix.
  pose proof (trim_start_head u) as Hh; rewrite Hu, Hu' in Hh.
  destruct (rev_string (trim_start (rev_string u))); [exact I | exact Hh].
Qed.

Lemma trim_idem : forall s, trim (trim s) = trim s.
Proof.
  intros s; unfold trim, trim_end.
  rewrite (trim_start_rev_fix (trim_start s) (trim_start_idem s)).
  now rewrite rev_string_involutive, trim_start_idem.
Qed.

Lemma lower_trim_lower : forall s,
  trim (toLowerCase (trim (toLowerCase s))) = trim (toLowerCase s).
Proof.
  intros s. now rewrite <- trim_toLowerCase, toLowerCase_idem, trim_idem.
Qed.

Lemma call_loop_trace : forall p upstream fuel text history rc w,
  exists k, (k <= fuel)%nat /\ (k = O \/ rc + k <= MAX_RETRIES)%nat /\
    events (snd (call_loop p upstream fuel text history rc w))
      = (events w ++ retry_trace (build_messages text history) rc k)%list /\
    calls (snd (call_loop p upstream fuel text history rc w)) = (calls w + S k)%nat.
Proof.
  intros p upstream fuel; induction fuel as [| fuel IH]; intros text history rc w;
    cbn [call_loop]; unfold bind, send, ret; cbn.
  - exists O; destruct (p_try p _) as [s | t];
      [| destruct (_ && _)%bool]; cbn; repeat split; auto; lia.
  - destruct (p_try p _) as [s | t].
    + exists O; cbn; repeat split; auto; lia.
    + destruct (p_isRateLimit p t && (rc <=? 2)%nat)%bool eqn:E.
      * apply andb_true_iff in E as [_ E]; apply Nat.leb_le in E.
        cbn.
        destruct (IH text history (S rc)
                    (mkWorld (S (calls w))
                       ((events w ++ [Send (build_messages text history)]) ++
                        [Sleep (backoff rc)]))) as [k [Hk [Hr [Hev Hc]]]].
        exists (S k); repeat split; [lia | | |].
        -- right; unfold MAX_RETRIES in *; destruct Hr; [subst; lia | lia].
        -- rewrite Hev; cbn; rewrite <- !app_assoc; reflexivity.
        -- rewrite Hc; cbn; lia.
      * exists O; cbn; repeat split; auto; lia.
Qed.

(** X1.  Whatever the vendor answers, a call of [callAIAgent] from [retryCount]
    makes [k + 1] vendor calls for some [k <= 3 - retryCount], each with the
    same messages, separated by sleeps of [backoff retryCount],
    [backoff (retryCount + 1)], ...; nothing else happens. *)
Theorem callAIAgent_trace : forall p upstream text language history rc w,
  exists k, (k <= MAX_RETRIES - rc)%nat /\
    events (snd (callAIAgent p upstream text language history rc w))
      = (events w ++ retry_trace (build_messages text history) rc k)%list /\
    calls (snd (callAIAgent p upstream text language history rc w)) = (calls w + S k)%nat.
Proof.
  intros; unfold callAIAgent.
  destruct (call_loop_trace p upstream (MAX_RETRIES - rc) text history rc w)
    as [k [Hk [_ [Hev Hc]]]].
  exists k; auto.
Qed.

Lemma sleep_total_app : forall l m, sleep_total (l ++ m) = (sleep_total l + sleep_total m)%Z.
Proof. induction l as [| [] l IH]; intros m; cbn; rewrite ?IH; lia. Qed.

(** X2.  A call of [callAIAgent] from [retryCount = 0] makes at most 4 vendor
    calls and sleeps at most 14000 ms in total. *)
Theorem callAIAgent_wait_bound : forall p upstream text language history w,
  (calls (snd (callAIAgent p upstream text language history 0 w)) <= calls w + 4)%nat /\
  (sleep_total (events (snd (callAIAgent p upstream text language history 0 w)))
     <= sleep_total (events w) + 14000)%Z.
Proof.
  intros; unfold callAIAgent.
  destruct (call_loop_trace p upstream (MAX_RETRIES - 0) text history 0 w)
    as [k [Hk [_ [Hev Hc]]]].
  rewrite Hev, Hc, sleep_total_app; split; [unfold MAX_RETRIES in Hk; lia |].
  unfold MAX_RETRIES in Hk.
  destruct k as [| [| [| [| k]]]]; cbn; try lia.
Qed.

(** Enhanced error bookkeeping. *)
Lemma enhance_fields : forall p t rc, In p [openrouter; groq] ->
  en_isRateLimit (p_enhance p t rc) = p_isRateLimit p t /\
  en_originalError (p_enhance p t rc) = t /\
  en_retryCount (p_enhance p t rc) = rc.
Proof.
  intros p t rc [<- | [<- | []]]; cbn;
    [unfold enhance_openrouter | unfold enhance_groq];
    repeat match goal with |- context [if ?b then _ else _] => destruct b end;
    cbn; auto.
Qed.

Lemma try_trimmed : forall p r s, In p [openrouter; groq] ->
  p_try p r = inl s -> trim s = s.
Proof.
  intros p r s [<- | [<- | []]]; cbn;
    [unfold try_openrouter | unfold try_groq];
    destruct r as [c | t]; try discriminate;
    destruct (negb (content_truthy c)); try discriminate;
    destruct c; try discriminate; intros [= <-]; apply trim_idem.
Qed.

(** X3.  Every text that [callAIAgent] returns is trimmed: trimming it again
    changes nothing. *)
Theorem callAIAgent_result_trimmed : forall p upstream text language history rc w s,
  In p [openrouter; groq] ->
  fst (callAIAgent p upstream text language history rc w) = inl s -> trim s = s.
Proof.
  intros p upstream text language history rc w s Hp; unfold callAIAgent.
  generalize (MAX_RETRIES - rc)%nat as fuel; intro fuel; revert rc w.
  induction fuel as [| fuel IH]; intros rc w;
    cbn [call_loop]; unfold bind, send, ret; cbn.
  - destruct (p_try p _) as [s' | t] eqn:E; [intros [= <-]; eapply try_trimmed; eauto |].
    destruct (_ && _)%bool; discriminate.
  - destruct (p_try p _) as [s' | t] eqn:E; [intros [= <-]; eapply try_trimmed; eauto |].
    destruct (_ && _)%bool; [cbn; apply IH | discriminate].
Qed.

Lemma call_loop_error : forall p upstream fuel text history rc w e,
  In p [openrouter; groq] ->
  (rc + fuel = MAX_RETRIES)%nat ->
  fst (call_loop p upstream fuel text history rc w) = inr e ->
  e = p_enhance p (en_originalError e) (en_retryCount e) /\
  en_isRateLimit e = p_isRateLimit p (en_originalError e) /\
  (rc <= en_retryCount e)%nat /\
  calls (snd (call_loop p upstream fuel text history rc w))
    = (calls w + S (en_retryCount e - rc))%nat /\
  (en_isRateLimit e = true -> en_retryCount e = MAX_RETRIES).
Proof.
  intros p upstream fuel; induction fuel as [| fuel IH]; intros text history rc w e Hp Hf;
    cbn [call_loop]; unfold bind, send, ret; cbn.
  - destruct (p_try p _) as [s | t]; [discriminate |].
    destruct (enhance_fields p t rc Hp) as [H1 [H2 H3]].
    destruct (_ && _)%bool; intros [= <-]; rewrite H1, H2, H3;
      repeat split; auto; intros; cbn; unfold MAX_RETRIES in *; lia.
  - destruct (p_try p _) as [s | t]; [discriminate |].
    destruct (enhance_fields p t rc Hp) as [H1 [H2 H3]].
    destruct (p_isRateLimit p t && (rc <=? 2)%nat)%bool eqn:E.
    + cbn. intros He.
      destruct (IH text history (S rc) _ e Hp ltac:(lia) He) as [F0 [F1 [F2 [F3 F4]]]].
      repeat split; auto; [lia | rewrite F3; cbn; lia].
    + intros [= <-]; rewrite H1, H2, H3; repeat split; auto; cbn; try lia.
      intros Hrl; rewrite Hrl in E; cbn in E.
      apply Nat.leb_gt in E; unfold MAX_RETRIES in *; lia.
Qed.

(** X4.  An error raised by [callAIAgent] (started at [retryCount <= 3])
    records whether its original error is rate-limited, its [retryCount] counts
    the vendor calls made, and when it is rate-limited it is always the
    retries-exhausted error with [retryCount = 3]: the "temporarily
    rate-limited" message is never raised. *)
Theorem callAIAgent_error_record : forall p upstream text language history rc w e,
  In p [openrouter; groq] -> (rc <= MAX_RETRIES)%nat ->
  fst (callAIAgent p upstream text language history rc w) = inr e ->
  en_isRateLimit e = p_isRateLimit p (en_originalError e) /\
  calls (snd (callAIAgent p upstream text language history rc w))
    = (calls w + S (en_retryCount e - rc))%nat /\
  (en_isRateLimit e = true ->
     en_retryCount e = MAX_RETRIES /\ en_message e = exhausted_message).
Proof.
  intros p upstream text language history rc w e Hp Hrc He; unfold callAIAgent in *.
  destruct (call_loop_error p upstream (MAX_RETRIES - rc) text history rc w e Hp
              ltac:(lia) He) as [F0 [F1 [F2 [F3 F4]]]].
  split; [exact F1 |]. split; [exact F3 |].
  intros Hrl. assert (Hr : en_retryCount e = MAX_RETRIES) by auto.
  split; [exact Hr |].
  rewrite F0, Hr. apply enhance_rate_limited_exhausted; [exact Hp |].
  rewrite <- F1; exact Hrl.
Qed.

Lemma extract_code_truthy : forall t,
  truthy (extract_code_openrouter t) = true /\ truthy (extract_code_groq t) = true.
Proof.
  intros [s | e]; cbn; [auto |].
  unfold extract_code_openrouter, extract_code_groq.
  destruct (truthy (err_status e)) eqn:E1; [auto |].
  destruct (truthy (err_statusCode e)) eqn:E2; [auto |].
  destruct (truthy (err_code e) && is_number (err_code e))%bool eqn:E3;
    [apply andb_true_iff in E3 as [E3 _]; auto |].
  destruct (truthy (response_status e)) eqn:E4; [auto |].
  split; [reflexivity |].
  destruct (err_error e) as [[s | m c] |]; try reflexivity.
  destruct (truthy c) eqn:E5; [exact E5 | reflexivity].
Qed.

Lemma enhance_status_truthy : forall p t rc, In p [openrouter; groq] ->
  truthy (en_statusCode (p_enhance p t rc)) = true.
Proof.
  intros p t rc [<- | [<- | []]]; cbn;
    [unfold enhance_openrouter | unfold enhance_groq];
    destruct (extract_code_truthy t) as [T1 T2];
    repeat match goal with |- context [if ?b then _ else _] => destruct b end;
    cbn; auto.
Qed.

(** X5.  The [statusCode] of an error raised by [callAIAgent] is never falsy,
    so the POST /chat error path answers with exactly that status. *)
Theorem callAIAgent_error_status : forall p upstream text language history rc w e production
    frames,
  In p [openrouter; groq] ->
  fst (callAIAgent p upstream text language history rc w) = inr e ->
  truthy (en_statusCode e) = true /\
  Server.res_status (Server.chat_error_response production frames (Server.ClientError e))
    = en_statusCode e.
Proof.
  intros p upstream text language history rc w e production frames Hp; unfold callAIAgent.
  generalize (MAX_RETRIES - rc)%nat as fuel; intro fuel; revert rc w.
  assert (H : forall t rc, truthy (en_statusCode (p_enhance p t rc)) = true /\
            Server.res_status (Server.chat_error_response production frames
                                 (Server.ClientError (p_enhance p t rc)))
              = en_statusCode (p_enhance p t rc)).
  { intros t rc; pose proof (enhance_status_truthy p t rc Hp) as T.
    split; [exact T | cbn; rewrite T; reflexivity]. }
  induction fuel as [| fuel IH]; intros rc w;
    cbn [call_loop]; unfold bind, send, ret; cbn.
  - destruct (p_try p _) as [s' | t]; [discriminate |].
    destruct (_ && _)%bool; intros [= <-]; apply H.
  - destruct (p_try p _) as [s' | t]; [discriminate |].
    destruct (_ && _)%bool; [cbn; apply IH | intros [= <-]; apply H].
Qed.

(** X6.  Every failure the OpenRouter client classifies as rate-limited is
    rate-limited for the Groq client too. *)
Theorem isRateLimit_groq_covers_openrouter : forall t,
  isRateLimit_openrouter t = true -> isRateLimit_groq t = true.
Proof.
  intros t; unfold isRateLimit_openrouter, isRateLimit_groq.
  assert (Hc : code_is_429 (extract_code_openrouter t) = true ->
               code_is_429 (extract_code_groq t) = true).
  { destruct t as [s | e]; cbn; [auto |].
    unfold extract_code_openrouter, extract_code_groq.
    destruct (truthy (err_status e)); [auto |].
    destruct (truthy (err_statusCode e)); [auto |].
    destruct (truthy (err_code e) && is_number (err_code e))%bool; [auto |].
    destruct (truthy (response_status e)); [auto | discriminate]. }
  assert (Hb : forall b, string_body_test b (fun b => includes b "rate") = true ->
               string_body_test b (fun b => includes b "rate" || includes b "quota") = true).
  { intros b; unfold string_body_test; destruct (truthy b); cbn; [| discriminate].
    destruct b; try discriminate; intros ->; reflexivity. }
  destruct (code_is_429 (extract_code_openrouter t)) eqn:E; [rewrite Hc; auto |].
  cbn; rewrite !orb_true_iff; intros [[H | H] | H]; auto 6.
Qed.

(** X7.  The Groq client's result for a completion whose content is an array of
    parts depends only on the number of parts, never on their text. *)
Theorem try_groq_parts_length : forall ps qs,
  length ps = length qs ->
  try_groq (Completion (ContentParts ps)) = try_groq (Completion (ContentParts qs)).
Proof.
  intros ps qs H.
  assert (Hm : map (fun _ : ContentPart => JObject) ps = map (fun _ => JObject) qs).
  { revert qs H; induction ps as [| a ps IH]; intros [| b qs] H; cbn in *; try discriminate;
      [reflexivity | now rewrite (IH qs ltac:(lia))]. }
  unfold try_groq; cbn [content_truthy negb]. rewrite Hm; reflexivity.
Qed.

(** X8.  The OpenRouter client's result for an array of content parts only
    depends on the parts of type "text". *)
Theorem try_openrouter_text_parts_only : forall ps,
  try_openrouter (Completion (ContentParts ps))
  = try_openrouter (Completion (ContentParts
      (filter (fun item => String.eqb (part_type item) "text") ps))).
Proof.
  intros ps; unfold try_openrouter; cbn [content_truthy negb].
  do 4 f_equal.
  induction ps as [| a ps IH]; cbn; [reflexivity |].
  destruct (String.eqb (part_type a) "text") eqn:E; cbn; [rewrite E; congruence | exact IH].
Qed.

Lemma first_emotion_in : forall r l e,
  Format.first_emotion r l = Some e -> In e (map capitalize l).
Proof.
  intros r; induction l as [| x l IH]; intros e; cbn; [discriminate |].
  destruct (includes r x); [intros [= <-]; auto | intros H; right; auto].
Qed.

Lemma first_category_in : forall r l c,
  Format.first_category r l = Some c -> In c l.
Proof.
  intros r; induction l as [| x l IH]; intros c; cbn; [discriminate |].
  destruct (includes r _); [intros [= <-]; auto | intros H; right; auto].
Qed.

Lemma formatEmotionResult_in : forall result,
  In (Format.formatEmotionResult result) ["Stressed"; "Happy"; "Sad"; "Angry"; "Neutral"].
Proof.
  intros result; unfold Format.formatEmotionResult.
  destruct (Format.first_emotion _ _) as [e |] eqn:E.
  - exact (first_emotion_in _ _ _ E).
  - cbn; tauto.
Qed.

Lemma formatCategoryResult_in : forall result,
  In (Format.formatCategoryResult result) Format.categories.
Proof.
  intros result; unfold Format.formatCategoryResult.
  destruct (Format.first_category _ _) as [c |] eqn:E.
  - exact (first_category_in _ _ _ E).
  - cbn; tauto.
Qed.

(** X11.  [formatEmotionResult] ignores case and surrounding white space, and
    formatting its own result gives the result back. *)
Theorem formatEmotionResult_normal : forall result,
  Format.formatEmotionResult (trim (toLowerCase result)) = Format.formatEmotionResult result /\
  Format.formatEmotionResult (Format.formatEmotionResult result)
    = Format.formatEmotionResult result.
Proof.
  intros result; split.
  - unfold Format.formatEmotionResult; now rewrite lower_trim_lower.
  - destruct (formatEmotionResult_in result) as [H | [H | [H | [H | [H | []]]]]];
      rewrite <- H; reflexivity.
Qed.

(** X12.  [formatCategoryResult] ignores case and surrounding white space, and
    formatting its own result gives the result back. *)
Theorem formatCategoryResult_normal : forall result,
  Format.formatCategoryResult (trim (toLowerCase result)) = Format.formatCategoryResult result /\
  Format.formatCategoryResult (Format.formatCategoryResult result)
    = Format.formatCategoryResult result.
Proof.
  intros result; split.
  - unfold Format.formatCategoryResult; now rewrite lower_trim_lower.
  - destruct (formatCategoryResult_in result) as [H | [H | [H | [H | [H | []]]]]];
      rewrite <- H; reflexivity.
Qed.

(** X9.  [formatEmotionResult] always returns one of Stressed, Happy, Sad,
    Angry, Neutral. *)
Theorem formatEmotionResult_range : forall result,
  In (Format.formatEmotionResult result) ["Stressed"; "Happy"; "Sad"; "Angry"; "Neutral"].
Proof. exact formatEmotionResult_in. Qed.

(** X10.  [formatCategoryResult] always returns one of the five category labels. *)
Theorem formatCategoryResult_range : forall result,
  In (Format.formatCategoryResult result) Format.categories.
Proof. exact formatCategoryResult_in. Qed.

Lemma normalizeLanguage_lower_trim : forall s,
  BookService.normalizeLanguage (JStr (trim (toLowerCase s)))
  = BookService.normalizeLanguage (JStr s).
Proof.
  intros s; unfold BookService.normalizeLanguage; cbn [truthy].
  destruct (String.eqb s "") eqn:Es.
  - apply String.eqb_eq in Es; subst; reflexivity.
  - cbn [negb]; rewrite lower_trim_lower.
    destruct (String.eqb (trim (toLowerCase s)) "") eqn:EL; [| reflexivity].
    apply String.eqb_eq in EL; rewrite EL; reflexivity.
Qed.

Lemma book_codes_fixed : forall code name,
  In (code, name) BookService.BOOK_LANGUAGE_MAP ->
  BookService.normalizeLanguage (JStr code) = inl (JStr code) /\
  BookService.normalizeLanguage (JStr name) = inl (JStr code).
Proof.
  intros code name Hin; cbn in Hin;
    repeat destruct Hin as [Hin | Hin]; try contradiction;
    injection Hin as <- <-; split; reflexivity.
Qed.

(** X14.  Any spelling of a supported code or language name, in any case and
    with surrounding white space, normalises to the code. *)
Theorem normalizeLanguage_spellings : forall code name s,
  In (code, name) BookService.BOOK_LANGUAGE_MAP ->
  trim (toLowerCase s) = code \/ trim (toLowerCase s) = name ->
  BookService.normalizeLanguage (JStr s) = inl (JStr code).
Proof.
  intros code name s Hin H.
  rewrite <- normalizeLanguage_lower_trim.
  destruct (book_codes_fixed code name Hin) as [H1 H2].
  destruct H as [-> | ->]; assumption.
Qed.

Lemma object_prototype_get_not_string : forall k s, object_prototype_get k <> JStr s.
Proof.
  intros k s; unfold object_prototype_get.
  repeat match goal with |- context [if ?b then _ else _] => destruct b end; discriminate.
Qed.

Lemma object_prototype_get_long : forall k,
  truthy (object_prototype_get k) = true -> (String.length k =? 2)%nat = false.
Proof.
  intros k; unfold object_prototype_get.
  destruct (String.eqb k "__proto__") eqn:E1;
    [apply String.eqb_eq in E1; subst; reflexivity |].
  destruct (String.eqb k "constructor") eqn:E2;
    [apply String.eqb_eq in E2; subst; reflexivity |].
  destruct (existsb _ _) eqn:E3; [| discriminate].
  intros _; apply existsb_exists in E3 as [x [Hx Hk]].
  apply String.eqb_eq in Hk; subst k.
  cbn in Hx; repeat destruct Hx as [<- | Hx]; try reflexivity; contradiction.
Qed.

Lemma normalizeLanguage_string_code : forall s c,
  BookService.normalizeLanguage (JStr s) = inl (JStr c) ->
  In c (map fst BookService.BOOK_LANGUAGE_MAP).
Proof.
  intros s c; unfold BookService.normalizeLanguage.
  destruct (negb (truthy (JStr s))); [intros [= <-]; cbn; auto |].
  set (L := trim (toLowerCase s)).
  destruct ((String.length L =? 2)%nat && truthy (obj_get BookService.BOOK_LANGUAGE_MAP (JStr L)))%bool
    eqn:E1.
  - intros [= <-]. apply andb_true_iff in E1 as [Hl Ht].
    unfold obj_get in Ht; cbn [to_str] in Ht.
    destruct (find _ _) as [[k v] |] eqn:F.
    + apply find_some in F as [Hin Hk]; cbn in Hk; apply String.eqb_eq in Hk; subst k.
      exact (in_map fst _ (L, v) Hin).
    + apply object_prototype_get_long in Ht; congruence.
  - destruct (truthy (obj_get BookService.LANGUAGE_NAME_TO_CODE (JStr L))) eqn:E2;
      [| intros [= <-]; cbn; auto].
    intros [= Hv]. unfold obj_get in Hv; cbn [to_str] in Hv.
    destruct (find _ _) as [[k v] |] eqn:F.
    + apply find_some in F as [Hin _]. injection Hv as <-.
      change (map fst BookService.BOOK_LANGUAGE_MAP)
        with (map snd BookService.LANGUAGE_NAME_TO_CODE).
      exact (in_map snd _ (k, v) Hin).
    + exfalso; exact (object_prototype_get_not_string _ _ Hv).
Qed.

(** X15.  A string that [normalizeLanguage] returns is always one of the 13
    supported codes, and normalising it again gives it back. *)
Theorem normalizeLanguage_string_results : forall s c,
  BookService.normalizeLanguage (JStr s) = inl (JStr c) ->
  In c (map fst BookService.BOOK_LANGUAGE_MAP) /\
  BookService.normalizeLanguage (JStr c) = inl (JStr c).
Proof.
  intros s c H; pose proof (normalizeLanguage_string_code s c H) as Hc; split; [exact Hc |].
  apply in_map_iff in Hc as [[code name] [<- Hin]].
  exact (proj1 (book_codes_fixed code name Hin)).
Qed.

Lemma book_map_entry : forall code name,
  In (code, name) BookService.BOOK_LANGUAGE_MAP ->
  obj_get BookService.BOOK_LANGUAGE_MAP (JStr code) = JStr name /\
  toLowerCase name = name /\ String.eqb name "" = false.
Proof.
  intros code name Hin; cbn in Hin;
    repeat destruct Hin as [Hin | Hin]; try contradiction;
    injection Hin as <- <-; repeat split; reflexivity.
Qed.

(** X16.  With chunks loaded, for a language that normalises to a supported code,
    [getBookContent] joins, in file order and with [book_separator], the texts
    of exactly the chunks whose language is that code's name, in any case. *)
Theorem getBookContent_known_language : forall allChunks language code name,
  allChunks <> [] ->
  BookService.normalizeLanguage language = inl (JStr code) ->
  In (code, name) BookService.BOOK_LANGUAGE_MAP ->
  Book.getBookContent allChunks language
  = inl (String.concat book_separator
           (map Book.chunk_text
              (filter (fun chunk => String.eqb (toLowerCase (Book.chunk_language chunk)) name)
                      allChunks))).
Proof.
  intros allChunks language code name Hne Hn Hin.
  destruct (book_map_entry code name Hin) as [Hg [Hl He]].
  unfold Book.getBookContent.
  destruct allChunks as [| c0 cs]; [contradiction |].
  set (all := c0 :: cs).
  rewrite Hn, Hg; cbn [truthy]; rewrite He; cbn [negb].
  cbn [to_str].
  rewrite Hl.
  rewrite (filter_ext
             (fun chunk => negb (String.eqb (Book.chunk_language chunk) "")
                           && String.eqb (toLowerCase (Book.chunk_language chunk)) name)%bool
             (fun chunk => String.eqb (toLowerCase (Book.chunk_language chunk)) name)).
  - destruct (filter _ all); reflexivity.
  - intros ch; destruct (String.eqb (Book.chunk_language ch) "") eqn:E; [| reflexivity].
    apply String.eqb_eq in E; rewrite E; cbn.
    destruct name; [discriminate He | reflexivity].
Qed.

(** X13.  [normalizeLanguage] on a string only depends on its lower-cased,
    trimmed form. *)
Theorem normalizeLanguage_case_blind : forall s,
  BookService.normalizeLanguage (JStr s)
  = BookService.normalizeLanguage (JStr (trim (toLowerCase s))).
Proof. intros s; symmetry; apply normalizeLanguage_lower_trim. Qed.

Lemma callAIAgent_calls_le : forall p upstream text language history w,
  (calls (snd (callAIAgent p upstream text language history 0 w)) <= calls w + 4)%nat.
Proof.
  intros; unfold callAIAgent.
  destruct (call_loop_trace p upstream (MAX_RETRIES - 0) text history 0 w)
    as [k [Hk [_ [_ Hc]]]].
  rewrite Hc; unfold MAX_RETRIES in Hk; lia.
Qed.

Lemma callAIAgent_js_calls_le : forall p upstream text language history w,
  (calls (snd (Caller.callAIAgent_js p upstream text language history 0 w)) <= calls w + 4)%nat.
Proof.
  intros p upstream text language [l | v] w; cbn [Caller.callAIAgent_js].
  - apply callAIAgent_calls_le.
  - destruct (throw_loop_events p (MAX_RETRIES - 0)
                (plain_error (Caller.history_map_error v)) 0 w) as [Hc _].
    rewrite Hc; lia.
Qed.

Ltac split_call :=
  unfold bind;
  match goal with
  | |- context [callAIAgent ?q ?u ?t ?l ?h 0 ?w] =>
      let Hc := fresh "Hc" in let E := fresh "E" in
      pose proof (callAIAgent_calls_le q u t l h w) as Hc;
      destruct (callAIAgent q u t l h 0 w) as [[?r | ?e] ?w'] eqn:E;
      cbn in Hc |- *
  | |- context [Caller.callAIAgent_js ?q ?u ?t ?l ?h 0 ?w] =>
      let Hc := fresh "Hc" in let E := fresh "E" in
      pose proof (callAIAgent_js_calls_le q u t l h w) as Hc;
      destruct (Caller.callAIAgent_js q u t l h 0 w) as [[?r | ?e] ?w'] eqn:E;
      cbn in Hc |- *
  end.

(** X17.  Each POST /chat request makes at most 4 vendor calls in all three
    server versions, and none when [text] is missing or falsy. *)
Theorem chat_vendor_calls_bound : forall p upstream production frames allChunks req w,
  (calls (snd (Server.chat_handler p upstream production frames allChunks req w))
     <= calls w + 4)%nat /\
  (calls (snd (Part000.chat_handler p upstream production frames req w)) <= calls w + 4)%nat /\
  (calls (snd (Part001.chat_handler p upstream req w)) <= calls w + 4)%nat /\
  (truthy (Server.req_text req) = false ->
     snd (Server.chat_handler p upstream production frames allChunks req w) = w /\
     snd (Part000.chat_handler p upstream production frames req w) = w /\
     snd (Part001.chat_handler p upstream req w) = w).
Proof.
  intros p upstream production frames allChunks req w.
  split; [| split; [| split]].
  - unfold Server.chat_handler.
    destruct (negb (truthy (Server.req_text req))); [cbn; lia |].
    destruct (BookService.normalizeLanguage _) as [lang | te]; [| cbn; lia].
    destruct (Book.isBookChatbotRequest _).
    + destruct (Book.getBookContent allChunks lang) as [bc | te]; [| cbn; lia].
      destruct (Caller.getBookChatbotPrompt_js _ _ _ _) as [prompt | te]; [| cbn; lia].
      split_call; lia.
    + unfold Server.workflow_step, Caller.processStepWithAI_js. split_call; lia.
  - unfold Part000.chat_handler.
    destruct (negb (truthy (Server.req_text req))); [cbn; lia |].
    destruct (negb (truthy (Server.req_stepType req))); [cbn; lia |].
    destruct (Part000.normalizeLanguage _) as [lang | te]; [| cbn; lia].
    unfold Server.workflow_step, Caller.processStepWithAI_js. split_call; lia.
  - unfold Part001.chat_handler.
    destruct (negb (truthy (Server.req_text req))); [cbn; lia |].
    destruct (truthy (Server.req_stepType req));
      unfold Caller.processStepWithAI_js; split_call; lia.
  - intros Ht; unfold Server.chat_handler, Part000.chat_handler, Part001.chat_handler;
      rewrite Ht; repeat split.
Qed.

Lemma chat_error_keys_production : forall frames error,
  map fst (Server.res_body (Server.chat_error_response true frames error))
  = ["error"; "statusCode"].
Proof. intros frames []; reflexivity. Qed.

Ltac prod_error :=
  cbn [fst ret Server.error_reply]; try rewrite chat_error_keys_production; cbn;
  intuition discriminate.

(** X18.  In production no POST /chat response of [src/server.js] or part_000
    carries an [originalError] field. *)
Theorem chat_production_hides_originalError : forall p upstream frames allChunks req w,
  ~ In "originalError"
      (map fst (Server.res_body
                  (fst (Server.chat_handler p upstream true frames allChunks req w)))) /\
  ~ In "originalError"
      (map fst (Server.res_body (fst (Part000.chat_handler p upstream true frames req w)))).
Proof.
  intros p upstream frames allChunks req w; split.
  - unfold Server.chat_handler.
    destruct (negb (truthy (Server.req_text req))); [cbn; intuition discriminate |].
    destruct (BookService.normalizeLanguage _) as [lang | te]; [| prod_error].
    destruct (Book.isBookChatbotRequest _).
    + destruct (Book.getBookContent allChunks lang) as [bc | te]; [| prod_error].
      destruct (Caller.getBookChatbotPrompt_js _ _ _ _) as [prompt | te]; [| prod_error].
      split_call; [intuition discriminate | prod_error].
    + unfold Server.workflow_step, Caller.processStepWithAI_js.
      split_call; [intuition discriminate | prod_error].
  - unfold Part000.chat_handler.
    destruct (negb (truthy (Server.req_text req))); [cbn; intuition discriminate |].
    destruct (negb (truthy (Server.req_stepType req))); [cbn; intuition discriminate |].
    destruct (Part000.normalizeLanguage _) as [lang | te]; [| prod_error].
    unfold Server.workflow_step, Caller.processStepWithAI_js.
    split_call; [intuition discriminate | prod_error].
Qed.

Lemma part000_normalizeLanguage_same : forall l,
  Part000.normalizeLanguage l = BookService.normalizeLanguage l.
Proof. reflexivity. Qed.

(** X19.  A request with a text and a truthy non-string [language] is answered
    from the [catch] with the TypeError "language.toLowerCase is not a
    function", without any vendor call ([src/server.js]; part_000 once
    [stepType] is given): status 500 and that message as [error]; in
    production the body is exactly [{error, statusCode: 500}]. *)
Theorem chat_bad_language_type : forall p upstream production frames allChunks req w,
  truthy (Server.req_text req) = true ->
  truthy (Server.req_language req) = true ->
  (forall s, Server.req_language req <> JStr s) ->
  let te := Server.TypeErrorThrown "language.toLowerCase is not a function" in
  Server.chat_handler p upstream production frames allChunks req w
    = (Server.chat_error_response production (frames te) te, w) /\
  (truthy (Server.req_stepType req) = true ->
   Part000.chat_handler p upstream production frames req w
    = (Server.chat_error_response production (frames te) te, w)) /\
  Server.res_status (Server.chat_error_response production (frames te) te) = JNum 500 /\
  body_error (Server.chat_error_response production (frames te) te)
    = Some (JStr "language.toLowerCase is not a function") /\
  Server.chat_error_response true (frames te) te
    = Server.mkHttp (JNum 500)
        [("error", JStr "language.toLowerCase is not a function"); ("statusCode", JNum 500)].
Proof.
  intros p upstream production frames allChunks req w Ht Hl Hs te.
  assert (Hn : BookService.normalizeLanguage (Server.default_language (Server.req_language req))
               = inr "language.toLowerCase is not a function").
  { destruct (Server.req_language req) eqn:E; cbn in Hl; try discriminate;
      try (exfalso; exact (Hs _ eq_refl)); unfold BookService.normalizeLanguage;
      cbn; try rewrite Hl; reflexivity. }
  split; [| split; [| split; [| split]]].
  - unfold Server.chat_handler; rewrite Ht, Hn; reflexivity.
  - intros Hst; unfold Part000.chat_handler; rewrite Ht, Hst, part000_normalizeLanguage_same, Hn.
    reflexivity.
  - destruct production; reflexivity.
  - rewrite chat_error_field; reflexivity.
  - reflexivity.
Qed.

Lemma format_step_emotion : forall r,
  In (Server.format_step (JStr "detect_emotion") r) emotion_labels.
Proof. intros r; apply formatEmotionResult_in. Qed.

Lemma format_step_category : forall r,
  In (Server.format_step (JStr "categorize_text") r) Format.categories.
Proof. intros r; apply formatCategoryResult_in. Qed.

Lemma chat_error_no_response : forall production frames error v,
  ~ In ("response", v) (Server.res_body (Server.chat_error_response production frames error)).
Proof.
  intros production frames error v; unfold Server.chat_error_response; cbn [Server.res_body].
  rewrite error_stack_nonempty.
  destruct production, error as [e | m]; cbn;
    repeat match goal with |- context [if ?b then _ else _] => destruct b end;
    cbn; intuition discriminate.
Qed.

Ltac resp_case :=
  cbn [fst ret Server.error_reply];
  match goal with
  | |- In _ (Server.res_body (Server.chat_error_response _ _ _)) -> _ =>
      intros H; exfalso; exact (chat_error_no_response _ _ _ _ H)
  | _ => cbn; intuition discriminate
  end.

Section Formatted.

Variable label : string.
Variable labels : list string.
Hypothesis Hfmt : forall r, In (Server.format_step (JStr label) r) labels.
Hypothesis Hlabel : Book.isBookChatbotRequest (JStr label) = false.

Lemma formatted_response : forall p upstream production frames allChunks req w v,
  Server.req_stepType req = JStr label ->
  (In ("response", v)
      (Server.res_body (fst (Server.chat_handler p upstream production frames allChunks req w)))
   \/ In ("response", v)
        (Server.res_body (fst (Part000.chat_handler p upstream production frames req w)))
   \/ In ("response", v) (Server.res_body (fst (Part001.chat_handler p upstream req w)))) ->
  exists x, v = JStr x /\ In x labels.
Proof.
  intros p upstream production frames allChunks req w v Hst [H | [H | H]]; revert H.
  - unfold Server.chat_handler; rewrite Hst, Hlabel.
    destruct (negb (truthy (Server.req_text req))); [resp_case |].
    destruct (BookService.normalizeLanguage _) as [lang | te]; [| resp_case].
    unfold Server.workflow_step, Caller.processStepWithAI_js, bind.
    destruct (Caller.callAIAgent_js _ _ _ _ _ _ _) as [[r | e] w'].
    + intros [H | H]; [discriminate | destruct H as [H | H]; [injection H as <-; eauto |]].
      cbn in H; intuition discriminate.
    + resp_case.
  - unfold Part000.chat_handler; rewrite Hst.
    destruct (negb (truthy (Server.req_text req))); [resp_case |].
    destruct (negb (truthy (JStr label))); [resp_case |].
    destruct (Part000.normalizeLanguage _) as [lang | te]; [| resp_case].
    unfold Server.workflow_step, Caller.processStepWithAI_js, bind.
    destruct (Caller.callAIAgent_js _ _ _ _ _ _ _) as [[r | e] w'].
    + intros [H | H]; [discriminate | destruct H as [H | H]; [injection H as <-; eauto |]].
      cbn in H; intuition discriminate.
    + resp_case.
  - unfold Part001.chat_handler; rewrite Hst.
    destruct (negb (truthy (Server.req_text req))); [resp_case |].
    assert (Ht : truthy (JStr label) = true).
    { unfold Book.isBookChatbotRequest in Hlabel.
      destruct (truthy (JStr label)); [reflexivity | discriminate]. }
    rewrite Ht. unfold Caller.processStepWithAI_js. split_call.
    + intros [H | H]; [injection H as <-; eauto | cbn in H; intuition discriminate].
    + intros [H | []]; discriminate.
Qed.

End Formatted.

(** X20.  For [stepType] "detect_emotion" (resp. "categorize_text"), the
    [response] field of a POST /chat answer is always one of the five emotion
    labels (resp. category labels), in all three server versions. *)
Theorem chat_formatted_responses : forall p upstream production frames allChunks req w v,
  let in_response h := In ("response", v) (Server.res_body (fst h)) in
  (in_response (Server.chat_handler p upstream production frames allChunks req w)
   \/ in_response (Part000.chat_handler p upstream production frames req w)
   \/ in_response (Part001.chat_handler p upstream req w)) ->
  (Server.req_stepType req = JStr "detect_emotion" ->
     exists x, v = JStr x /\ In x emotion_labels) /\
  (Server.req_stepType req = JStr "categorize_text" ->
     exists x, v = JStr x /\ In x Format.categories).
Proof.
  intros p upstream production frames allChunks req w v in_response H; split; intros Hst.
  - exact (formatted_response _ _ format_step_emotion eq_refl
             p upstream production frames allChunks req w v Hst H).
  - exact (formatted_response _ _ format_step_category eq_refl
             p upstream production frames allChunks req w v Hst H).
Qed.

(** Two runs of the [catch] that differ only in the recorded call sites. *)
Lemma error_reply_frames : forall production frames0 frames error w,
  snd (Server.error_reply production frames0 error w)
    = snd (Server.error_reply production frames error w) /\
  Server.res_status (fst (Server.error_reply production frames0 error w))
    = Server.res_status (fst (Server.error_reply production frames error w)) /\
  drop_stack (Server.res_body (fst (Server.error_reply production frames0 error w)))
    = drop_stack (Server.res_body (fst (Server.error_reply production frames error w))) /\
  (production = true ->
   Server.error_reply production frames0 error w = Server.error_reply production frames error w).
Proof.
  intros production frames0 frames error w.
  cbn [Server.error_reply ret fst snd]; unfold Server.chat_error_response.
  rewrite !error_stack_nonempty.
  split; [reflexivity | split; [reflexivity | split]].
  - destruct production, error as [e | m]; cbn [Server.res_body];
      [reflexivity | reflexivity | destruct (Server.thrown_truthy (en_originalError e)) |];
      reflexivity.
  - intros ->; reflexivity.
Qed.

(** X21.  On a request that is not a book-chat request, part_000 and
    [src/server.js] behave alike: the same vendor calls and waits, the same
    status and the same body apart from the ["stack"] entry (whose call sites
    name the file that threw), and the very same response in production. *)
Theorem part000_agrees_on_workflow : forall p upstream production frames0 frames allChunks req w,
  Book.isBookChatbotRequest (Server.req_stepType req) = false ->
  snd (Part000.chat_handler p upstream production frames0 req w)
    = snd (Server.chat_handler p upstream production frames allChunks req w) /\
  Server.res_status (fst (Part000.chat_handler p upstream production frames0 req w))
    = Server.res_status (fst (Server.chat_handler p upstream production frames allChunks req w)) /\
  drop_stack (Server.res_body (fst (Part000.chat_handler p upstream production frames0 req w)))
    = drop_stack
        (Server.res_body (fst (Server.chat_handler p upstream production frames allChunks req w))) /\
  (production = true ->
   Part000.chat_handler p upstream production frames0 req w
   = Server.chat_handler p upstream production frames allChunks req w).
Proof.
  intros p upstream production frames0 frames allChunks req w Hb.
  assert (Ht : truthy (Server.req_stepType req) = true).
  { unfold Book.isBookChatbotRequest in Hb.
    destruct (truthy (Server.req_stepType req)); [reflexivity | discriminate]. }
  unfold Part000.chat_handler, Server.chat_handler.
  rewrite Ht, Hb, part000_normalizeLanguage_same; cbn [negb].
  destruct (truthy (Server.req_text req)); [| cbn; repeat split].
  destruct (BookService.normalizeLanguage _) as [lang | te]; [| apply error_reply_frames].
  unfold Server.workflow_step, bind; cbn [negb].
  match goal with
  | |- context [Caller.processStepWithAI_js ?q ?u ?st ?tx ?lg ?h w] =>
      destruct (Caller.processStepWithAI_js q u st tx lg h w) as [[r | e] w']
  end;
    [repeat split | apply error_reply_frames].
Qed.

(** X22.  The part_001 server only ever answers with status 200, 400 or 500. *)
Theorem part001_status_codes : forall p upstream req w,
  In (Server.res_status (fst (Part001.chat_handler p upstream req w)))
     [JNum 200; JNum 400; JNum 500].
Proof.
  intros p upstream req w; unfold Part001.chat_handler.
  destruct (negb (truthy (Server.req_text req))); [cbn; tauto |].
  destruct (truthy (Server.req_stepType req)); unfold Caller.processStepWithAI_js;
    split_call; tauto.
Qed.



(** The client's answer to a non-array [history]: the TypeError of
    [history.map], enhanced with status 500, before any vendor call. *)
Lemma callAIAgent_js_non_array : forall p upstream text language v w,
  In p [openrouter; groq] ->
  Caller.callAIAgent_js p upstream text language (Caller.HistoryOther v) 0 w
  = (inr (mkEnhanced (Caller.history_map_error v) (JNum 500) false
            (plain_error (Caller.history_map_error v)) 0), w).
Proof.
  intros p upstream text language v w Hp.
  destruct (history_error_enhanced p v 0 Hp) as [Hr He].
  cbn [Caller.callAIAgent_js]; rewrite throw_loop_not_rate_limited by exact Hr.
  rewrite He; reflexivity.
Qed.

(** X25.  A [history] that is present but not an array (for instance [null],
    which the default [= []] does not replace) makes [history.map] throw
    inside the client's [try], before any vendor call: part_001 answers 500
    with the TypeError's message, and the workflow branch of [src/server.js]
    and part_000 answers 500 with that message as [error]; nothing is sent
    and nothing is waited. *)
Theorem chat_non_array_history : forall p upstream production frames allChunks req v w,
  In p [openrouter; groq] ->
  Server.req_history req = Some (Caller.HistoryOther v) ->
  truthy (Server.req_text req) = true ->
  Part001.chat_handler p upstream req w
    = (Server.mkHttp (JNum 500) [("error", JStr (Caller.history_map_error v))], w) /\
  (Book.isBookChatbotRequest (Server.req_stepType req) = false ->
   forall lang,
   BookService.normalizeLanguage (Server.default_language (Server.req_language req)) = inl lang ->
   snd (Server.chat_handler p upstream production frames allChunks req w) = w /\
   snd (Part000.chat_handler p upstream production frames req w) = w /\
   Server.res_status (fst (Server.chat_handler p upstream production frames allChunks req w))
     = JNum 500 /\
   Server.res_status (fst (Part000.chat_handler p upstream production frames req w))
     = JNum 500 /\
   body_error (fst (Server.chat_handler p upstream production frames allChunks req w))
     = Some (JStr (Caller.history_map_error v)) /\
   body_error (fst (Part000.chat_handler p upstream production frames req w))
     = Some (JStr (Caller.history_map_error v))).
Proof.
  intros p upstream production frames allChunks req v w Hp Hh Ht.
  assert (Hm : String.eqb (Caller.history_map_error v) "" = false) by (destruct v; reflexivity).
  split.
  - unfold Part001.chat_handler; rewrite Ht, Hh; cbn [negb Server.default_history].
    destruct (truthy (Server.req_stepType req)); unfold Caller.processStepWithAI_js, bind;
      rewrite callAIAgent_js_non_array by exact Hp; cbn;
      unfold Part001.error_response; cbn [en_message]; rewrite Hm; reflexivity.
  - intros Hb lang Hn.
    assert (Hst : truthy (Server.req_stepType req) = true).
    { unfold Book.isBookChatbotRequest in Hb.
      destruct (truthy (Server.req_stepType req)); [reflexivity | discriminate]. }
    unfold Server.chat_handler, Part000.chat_handler.
    assert (Hn0 : Part000.normalizeLanguage
                    (Server.default_language (Server.req_language req)) = inl lang) by exact Hn.
    rewrite Ht, Hb, Hst, Hh, Hn, Hn0;
      cbn [negb Server.default_history].
    unfold Server.workflow_step, Caller.processStepWithAI_js, bind.
    rewrite callAIAgent_js_non_array by exact Hp.
    cbn [Server.error_reply ret fst snd].
    rewrite chat_error_field; cbn [Server.error_message en_message en_isRateLimit orb].
    rewrite Hm.
    repeat split; reflexivity.
Qed.

Lemma append_assoc_str : forall a b c : string, a ++ (b ++ c) = (a ++ b) ++ c.
Proof. induction a; intros; cbn; [reflexivity | now rewrite IHa]. Qed.

(** X24.  The user's text ends every workflow prompt verbatim, and the question
    occurs verbatim in the book-chat prompt. *)
Theorem prompts_carry_user_text : forall stepType text language bookContent question history,
  (exists pre, Prompt.step_prompt stepType (JStr text) language = pre ++ text) /\
  includes (Prompt.getBookChatbotPrompt bookContent (JStr question) language history)
           question = true.
Proof.
  intros; split.
  - unfold Prompt.step_prompt, Prompt.clean_text_prompt, Prompt.detect_emotion_prompt,
      Prompt.categorize_text_prompt, Prompt.summarize_prompt, Prompt.translate_prompt.
    cbn [to_str].
    repeat match goal with |- context [if ?b then _ else _] => destruct b end;
      rewrite ?append_assoc_str; eauto.
    exists ""; reflexivity.
  - unfold Prompt.getBookChatbotPrompt, Prompt.book_prompt; cbn [to_str].
    do 5 apply includes_app_r. apply includes_app_self.
Qed.

(** ** Witnesses of the further properties *)

Lemma callAIAgent_result_trimmed_witness :
  In openrouter [openrouter; groq] /\
  fst (callAIAgent openrouter (constant_vendor (Completion (ContentString " ok ")))
         "hi" JUndefined [] 0 (mkWorld 0 [])) = inl "ok" /\
  trim "ok" = "ok".
Proof.
  assert (H1 : In openrouter [openrouter; groq]) by (left; reflexivity).
  assert (H2 : fst (callAIAgent openrouter (constant_vendor (Completion (ContentString " ok ")))
                      "hi" JUndefined [] 0 (mkWorld 0 [])) = inl "ok") by reflexivity.
  split; [exact H1 | split; [exact H2 |]].
  exact (callAIAgent_result_trimmed openrouter _ "hi" JUndefined [] 0 (mkWorld 0 []) "ok" H1 H2).
Defined.

Lemma callAIAgent_error_record_witness :
  In groq [openrouter; groq] /\ (0 <= MAX_RETRIES)%nat /\
  fst (callAIAgent groq (constant_vendor (VendorFailure error_429))
         "hi" JUndefined [] 0 (mkWorld 0 [])) = inr (enhance_groq error_429 3) /\
  (en_isRateLimit (enhance_groq error_429 3)
     = p_isRateLimit groq (en_originalError (enhance_groq error_429 3)) /\
   calls (snd (callAIAgent groq (constant_vendor (VendorFailure error_429))
                 "hi" JUndefined [] 0 (mkWorld 0 [])))
     = (calls (mkWorld 0 []) + S (en_retryCount (enhance_groq error_429 3) - 0))%nat /\
   (en_isRateLimit (enhance_groq error_429 3) = true ->
      en_retryCount (enhance_groq error_429 3) = MAX_RETRIES /\
      en_message (enhance_groq error_429 3) = exhausted_message)).
Proof.
  assert (H1 : In groq [openrouter; groq]) by (right; left; reflexivity).
  assert (H2 : (0 <= MAX_RETRIES)%nat) by (unfold MAX_RETRIES; lia).
  assert (H3 : fst (callAIAgent groq (constant_vendor (VendorFailure error_429))
                      "hi" JUndefined [] 0 (mkWorld 0 [])) = inr (enhance_groq error_429 3))
    by reflexivity.
  split; [exact H1 | split; [exact H2 | split; [exact H3 |]]].
  exact (callAIAgent_error_record groq _ "hi" JUndefined [] 0 (mkWorld 0 []) _ H1 H2 H3).
Defined.

Lemma callAIAgent_error_status_witness :
  In openrouter [openrouter; groq] /\
  fst (callAIAgent openrouter (constant_vendor (VendorFailure api_key_error))
         "hi" JUndefined [] 0 (mkWorld 0 [])) = inr (enhance_openrouter api_key_error 0) /\
  truthy (en_statusCode (enhance_openrouter api_key_error 0)) = true /\
  Server.res_status (Server.chat_error_response false []
                       (Server.ClientError (enhance_openrouter api_key_error 0)))
    = en_statusCode (enhance_openrouter api_key_error 0).
Proof.
  assert (H1 : In openrouter [openrouter; groq]) by (left; reflexivity).
  assert (H2 : fst (callAIAgent openrouter (constant_vendor (VendorFailure api_key_error))
                      "hi" JUndefined [] 0 (mkWorld 0 []))
               = inr (enhance_openrouter api_key_error 0)) by reflexivity.
  split; [exact H1 | split; [exact H2 |]].
  exact (callAIAgent_error_status openrouter _ "hi" JUndefined [] 0 (mkWorld 0 []) _ false []
           H1 H2).
Defined.

Lemma isRateLimit_groq_covers_openrouter_witness :
  isRateLimit_openrouter error_429 = true /\ isRateLimit_groq error_429 = true.
Proof.
  assert (H : isRateLimit_openrouter error_429 = true) by reflexivity.
  split; [exact H | exact (isRateLimit_groq_covers_openrouter error_429 H)].
Defined.

Lemma try_groq_parts_length_witness :
  length [mkPart "text" (JStr "first")] = length [mkPart "image_url" JUndefined] /\
  try_groq (Completion (ContentParts [mkPart "text" (JStr "first")]))
  = try_groq (Completion (ContentParts [mkPart "image_url" JUndefined])).
Proof.
  assert (H : length [mkPart "text" (JStr "first")] = length [mkPart "image_url" JUndefined])
    by reflexivity.
  split; [exact H | exact (try_groq_parts_length _ _ H)].
Defined.

Lemma normalizeLanguage_spellings_witness :
  In ("ta", "tamil") BookService.BOOK_LANGUAGE_MAP /\
  (trim (toLowerCase " TAMIL ") = "ta" \/ trim (toLowerCase " TAMIL ") = "tamil") /\
  BookService.normalizeLanguage (JStr " TAMIL ") = inl (JStr "ta").
Proof.
  assert (H1 : In ("ta", "tamil") BookService.BOOK_LANGUAGE_MAP) by (cbn; tauto).
  assert (H2 : trim (toLowerCase " TAMIL ") = "ta" \/ trim (toLowerCase " TAMIL ") = "tamil")
    by (right; reflexivity).
  split; [exact H1 | split; [exact H2 |]].
  exact (normalizeLanguage_spellings "ta" "tamil" " TAMIL " H1 H2).
Defined.

Lemma normalizeLanguage_string_results_witness :
  BookService.normalizeLanguage (JStr "Hindi") = inl (JStr "hi") /\
  In "hi" (map fst BookService.BOOK_LANGUAGE_MAP) /\
  BookService.normalizeLanguage (JStr "hi") = inl (JStr "hi").
Proof.
  assert (H : BookService.normalizeLanguage (JStr "Hindi") = inl (JStr "hi")) by reflexivity.
  split; [exact H | exact (normalizeLanguage_string_results "Hindi" "hi" H)].
Defined.

Lemma getBookContent_known_language_witness :
  let chunks := [Book.mkChunk "English" "A"; Book.mkChunk "tamil" "B"; Book.mkChunk "english" "C"] in
  chunks <> [] /\
  BookService.normalizeLanguage (JStr "EN") = inl (JStr "en") /\
  In ("en", "english") BookService.BOOK_LANGUAGE_MAP /\
  Book.getBookContent chunks (JStr "EN") = inl ("A" ++ book_separator ++ "C").
Proof.
  intros chunks.
  assert (H1 : chunks <> []) by discriminate.
  assert (H2 : BookService.normalizeLanguage (JStr "EN") = inl (JStr "en")) by reflexivity.
  assert (H3 : In ("en", "english") BookService.BOOK_LANGUAGE_MAP) by (left; reflexivity).
  split; [exact H1 | split; [exact H2 | split; [exact H3 |]]].
  rewrite (getBookContent_known_language chunks (JStr "EN") "en" "english" H1 H2 H3).
  reflexivity.
Defined.

Lemma chat_vendor_calls_bound_witness :
  truthy (Server.req_text empty_request) = false /\
  snd (Server.chat_handler openrouter (constant_vendor (VendorFailure error_429)) false
         sample_frames [] empty_request (mkWorld 0 [])) = mkWorld 0 [] /\
  snd (Part000.chat_handler openrouter (constant_vendor (VendorFailure error_429)) false
         sample_frames empty_request (mkWorld 0 [])) = mkWorld 0 [] /\
  snd (Part001.chat_handler openrouter (constant_vendor (VendorFailure error_429))
         empty_request (mkWorld 0 [])) = mkWorld 0 [].
Proof.
  assert (H : truthy (Server.req_text empty_request) = false) by reflexivity.
  split; [exact H |].
  exact (proj2 (proj2 (proj2 (chat_vendor_calls_bound openrouter
           (constant_vendor (VendorFailure error_429)) false sample_frames [] empty_request
           (mkWorld 0 [])))) H).
Defined.

Lemma chat_bad_language_type_witness :
  let req := Server.mkRequest (JStr "hello") (JNum 5) None (JStr "summarize") in
  truthy (Server.req_text req) = true /\ truthy (Server.req_language req) = true /\
  (forall s, Server.req_language req <> JStr s) /\
  fst (Server.chat_handler groq (constant_vendor (Completion (ContentString "ok"))) false
         sample_frames [] req (mkWorld 0 []))
  = Server.chat_error_response false
      (sample_frames (Server.TypeErrorThrown "language.toLowerCase is not a function"))
      (Server.TypeErrorThrown "language.toLowerCase is not a function") /\
  body_error (fst (Server.chat_handler groq (constant_vendor (Completion (ContentString "ok")))
                     false sample_frames [] req (mkWorld 0 [])))
  = Some (JStr "language.toLowerCase is not a function").
Proof.
  intros req.
  assert (H1 : truthy (Server.req_text req) = true) by reflexivity.
  assert (H2 : truthy (Server.req_language req) = true) by reflexivity.
  assert (H3 : forall s, Server.req_language req <> JStr s) by (intros s; discriminate).
  destruct (chat_bad_language_type groq (constant_vendor (Completion (ContentString "ok")))
              false sample_frames [] req (mkWorld 0 []) H1 H2 H3) as [E [_ [_ [B _]]]].
  split; [exact H1 | split; [exact H2 | split; [exact H3 |]]].
  rewrite E; split; [reflexivity | exact B].
Defined.

Lemma chat_formatted_responses_witness :
  let req := Server.mkRequest (JStr "hello") JUndefined None (JStr "detect_emotion") in
  let up := constant_vendor (Completion (ContentString "I am HAPPY today")) in
  In ("response", JStr "Happy")
     (Server.res_body (fst (Server.chat_handler openrouter up false sample_frames [] req
                              (mkWorld 0 [])))) /\
  Server.req_stepType req = JStr "detect_emotion" /\
  exists x, JStr "Happy" = JStr x /\ In x emotion_labels.
Proof.
  intros req up.
  assert (H1 : In ("response", JStr "Happy")
     (Server.res_body (fst (Server.chat_handler openrouter up false sample_frames [] req
                              (mkWorld 0 [])))))
    by (vm_compute; right; left; reflexivity).
  assert (H2 : Server.req_stepType req = JStr "detect_emotion") by reflexivity.
  split; [exact H1 | split; [exact H2 |]].
  exact (proj1 (chat_formatted_responses openrouter up false sample_frames [] req (mkWorld 0 [])
                  (JStr "Happy") (or_introl H1)) H2).
Defined.

Lemma part000_agrees_on_workflow_witness :
  let req := Server.mkRequest (JStr "hello") (JNum 5) None (JStr "translate") in
  let up := constant_vendor (VendorFailure error_429) in
  Book.isBookChatbotRequest (Server.req_stepType req) = false /\
  snd (Part000.chat_handler groq up false part000_frames req (mkWorld 0 []))
    = snd (Server.chat_handler groq up false sample_frames [sample_chunk] req (mkWorld 0 [])) /\
  drop_stack (Server.res_body (fst (Part000.chat_handler groq up false part000_frames req
                                      (mkWorld 0 []))))
    = drop_stack (Server.res_body (fst (Server.chat_handler groq up false sample_frames
                                          [sample_chunk] req (mkWorld 0 [])))) /\
  Part000.chat_handler groq up true part000_frames req (mkWorld 0 [])
    = Server.chat_handler groq up true sample_frames [sample_chunk] req (mkWorld 0 []).
Proof.
  intros req up.
  assert (H : Book.isBookChatbotRequest (Server.req_stepType req) = false) by reflexivity.
  destruct (part000_agrees_on_workflow groq up false part000_frames sample_frames
              [sample_chunk] req (mkWorld 0 []) H) as [E1 [_ [E3 _]]].
  destruct (part000_agrees_on_workflow groq up true part000_frames sample_frames
              [sample_chunk] req (mkWorld 0 []) H) as [_ [_ [_ E4]]].
  split; [exact H | split; [exact E1 | split; [exact E3 | exact (E4 eq_refl)]]].
Defined.


Lemma chat_non_array_history_witness :
  let req := Server.mkRequest (JStr "hi") JUndefined (Some (Caller.HistoryOther Caller.NANull))
               (JStr "summarize") in
  let up := constant_vendor (Completion (ContentString "ok")) in
  In openrouter [openrouter; groq] /\
  Server.req_history req = Some (Caller.HistoryOther Caller.NANull) /\
  truthy (Server.req_text req) = true /\
  Part001.chat_handler openrouter up req (mkWorld 0 [])
    = (Server.mkHttp (JNum 500)
         [("error", JStr "Cannot read properties of null (reading 'map')")], mkWorld 0 []) /\
  body_error (fst (Server.chat_handler openrouter up false sample_frames [] req (mkWorld 0 [])))
    = Some (JStr "Cannot read properties of null (reading 'map')") /\
  snd (Server.chat_handler openrouter up false sample_frames [] req (mkWorld 0 []))
    = mkWorld 0 [].
Proof.
  intros req up.
  assert (H1 : In openrouter [openrouter; groq]) by (left; reflexivity).
  assert (H2 : Server.req_history req = Some (Caller.HistoryOther Caller.NANull))
    by reflexivity.
  assert (H3 : truthy (Server.req_text req) = true) by reflexivity.
  assert (Hb : Book.isBookChatbotRequest (Server.req_stepType req) = false) by reflexivity.
  assert (Hn : BookService.normalizeLanguage (Server.default_language (Server.req_language req))
               = inl (JStr "en")) by reflexivity.
  destruct (chat_non_array_history openrouter up false sample_frames [] req Caller.NANull
              (mkWorld 0 []) H1 H2 H3) as [P1 P2].
  destruct (P2 Hb (JStr "en") Hn) as [S1 [_ [_ [_ [B1 _]]]]].
  split; [exact H1 | split; [exact H2 | split; [exact H3 | split; [exact P1 |]]]].
  split; [exact B1 | exact S1].
Defined.
